(** * Chatterbox TTS serverless handler: a shallow embedding of [handler.py]

    The handler is a linear pipeline (validate, resolve the reference audio,
    synthesise, encode, publish) wrapped in a [try ... finally] that removes
    the reference-audio temporary file.  The embedding keeps the Python
    control flow: a small monad carries the filesystem, the log of external
    calls and the one local variable that crosses the [try]/[finally]
    boundary; a computation either goes on, executes [return] or raises.

    What is outside the repository (the network, the base64 codec, the model,
    torchaudio, ffmpeg, the object store) is a field of the record [World];
    every such call is logged in the trace together with its outcome.

    The filesystem is a finite map from paths to contents.  Reading
    succeeds on a path that is there and raises [FileNotFoundError] on one
    that is not.  Writing and removing can fail as the operating system
    decides: [open(path, 'wb')] may raise before any file exists, [f.write]
    may raise after the file was created or truncated, and [os.remove] of a
    file that is there may raise and leave it there.  An external tool that
    fails leaves the filesystem as it found it.  Calls of [logger] are left
    out, except that the one log line that can raise (it divides by
    [SAMPLE_RATE]) keeps its division. *)

From stdpp Require Import gmap strings list fin_maps.
From Stdlib Require Import ZArith Ascii String.

#[local] Set Warnings "-register-all".
#[local] Open Scope string_scope.
#[local] Open Scope Z_scope.

(** ** Python strings

    A [str] is the Rocq [string] of its UTF-8 bytes: a character below
    U+0080 is one byte, one below U+0800 two bytes, one below U+10000 three
    bytes.  The whitespace of [str.strip()] is what [str.isspace()] accepts;
    all of it lies below U+10000. *)

Module PyStr.

(** Whitespace of one byte: TAB, LF, VT, FF, CR, FS, GS, RS, US and
    space. *)
Definition is_space1 (a : ascii) : bool :=
  let n := N_of_ascii a in
  ((9 <=? n) && (n <=? 13) || (28 <=? n) && (n <=? 32))%N.

(** Whitespace of two bytes: U+0085 (C2 85) and U+00A0 (C2 A0). *)
Definition is_space2 (a b : ascii) : bool :=
  let m := N_of_ascii a in
  let n := N_of_ascii b in
  ((m =? 194) && ((n =? 133) || (n =? 160)))%N.

(** Whitespace of three bytes: U+1680 (E1 9A 80), U+2000 to U+200A
    (E2 80 80 to E2 80 8A), U+2028, U+2029 and U+202F (E2 80 A8, A9, AF),
    U+205F (E2 81 9F) and U+3000 (E3 80 80). *)
Definition is_space3 (a b c : ascii) : bool :=
  let l := N_of_ascii a in
  let m := N_of_ascii b in
  let n := N_of_ascii c in
  ((l =? 225) && (m =? 154) && (n =? 128)
   || (l =? 226) && (m =? 128)
      && ((128 <=? n) && (n <=? 138) || (n =? 168) || (n =? 169) || (n =? 175))
   || (l =? 226) && (m =? 129) && (n =? 159)
   || (l =? 227) && (m =? 128) && (n =? 128))%N.

(** [s.lstrip()]: whitespace characters are dropped from the front, one
    character (one, two or three bytes) at a time. *)
Fixpoint lstrip (s : string) : string :=
  match s with
  | String a s1 =>
      if is_space1 a then lstrip s1
      else
        match s1 with
        | String b s2 =>
            if is_space2 a b then lstrip s2
            else
              match s2 with
              | String c s3 => if is_space3 a b c then lstrip s3 else s
              | EmptyString => s
              end
        | EmptyString => s
        end
  | EmptyString => EmptyString
  end.

(** Every character of [s] is whitespace ([s] may be empty). *)
Fixpoint whitespace_only (s : string) : bool :=
  match s with
  | String a s1 =>
      if is_space1 a then whitespace_only s1
      else
        match s1 with
        | String b s2 =>
            if is_space2 a b then whitespace_only s2
            else
              match s2 with
              | String c s3 => is_space3 a b c && whitespace_only s3
              | EmptyString => false
              end
        | EmptyString => false
        end
  | EmptyString => true
  end.

(** [s.rstrip()]: the string is cut where only whitespace follows.  A
    suffix that starts inside a character starts with a continuation byte
    and is never whitespace only. *)
Fixpoint rstrip (s : string) : string :=
  match s with
  | String a s1 =>
      if whitespace_only s then EmptyString else String a (rstrip s1)
  | EmptyString => EmptyString
  end.

Definition strip (s : string) : string := rstrip (lstrip s).

(** [s.lower()] on the letters A to Z.  The handler lowercases
    [output_format] only to compare it with [wav] and [mp3]; no character
    outside A to Z lowercases to one of the letters of these two words (the
    only one that lowercases into ASCII alone is U+212A, to [k]), so the
    comparison comes out as with Python's full case mapping. *)
Definition lower_char (c : ascii) : ascii :=
  let n := N_of_ascii c in
  if ((65 <=? n) && (n <=? 90))%N then ascii_of_N (n + 32) else c.

Fixpoint lower (s : string) : string :=
  match s with
  | String c s' => String (lower_char c) (lower s')
  | EmptyString => EmptyString
  end.

(** [s.startswith(p)] *)
Definition startswith (p s : string) : bool := String.prefix p s.

(** [s.startswith(("http://", "https://"))] *)
Definition startswith_url (s : string) : bool :=
  startswith "http://" s || startswith "https://" s.

(** Truth value of a [str]: false only for the empty string. *)
Definition truthy (s : string) : bool :=
  match s with EmptyString => false | _ => true end.

(** [posixpath.join(a, b)] *)
Definition ends_with_sep (a : string) : bool :=
  match String.get (Nat.pred (String.length a)) a with
  | Some c => Ascii.eqb c "/"
  | None => false
  end.

Definition os_path_join (a b : string) : string :=
  if startswith "/" b then b
  else if negb (truthy a) || ends_with_sep a then a ++ b
  else a ++ "/" ++ b.

End PyStr.

(** ** Python values *)

(** A [float] is named by what it was rounded from: [FDec neg m e] is the
    double that [float] makes of the decimal [(-1)^neg * m * 10^e] (the one
    nearest to it, an infinity when the decimal is out of range), [FDiv n d]
    is the double that [n / d] makes of two integers.  The handler does no
    arithmetic on these numbers: it hands them to the model and puts them
    in the result. *)
Inductive pyfloat :=
| FDec (neg : bool) (mant : N) (exp10 : Z)
| FInf (neg : bool)
| FNan
| FDiv (num den : Z).

Inductive pyval :=
| VNone
| VBool (b : bool)
| VInt (z : Z)
| VFloat (f : pyfloat)
| VStr (s : string)
| VList (l : list pyval)
| VDict (d : gmap string pyval).

Abbreviation pydict := (gmap string pyval).
Abbreviation bytes := string.

Record pyexn := PyExn { exn_class : string; exn_msg : string }.

(** [str(e)] *)
Definition str_exn (e : pyexn) : string := exn_msg e.

Definition type_name (v : pyval) : string :=
  match v with
  | VNone => "NoneType"
  | VBool _ => "bool"
  | VInt _ => "int"
  | VFloat _ => "float"
  | VStr _ => "str"
  | VList _ => "list"
  | VDict _ => "dict"
  end.

Definition AttributeError (v : pyval) (attr : string) : pyexn :=
  PyExn "AttributeError"
        ("'" ++ type_name v ++ "' object has no attribute '" ++ attr ++ "'").

(** Truth value of an object, as [not return_base64] takes it. *)
Definition float_truthy (f : pyfloat) : bool :=
  match f with
  | FDec _ m _ => negb (m =? 0)%N
  | FDiv n _ => negb (n =? 0)
  | FInf _ | FNan => true
  end.

Definition py_truthy (v : pyval) : bool :=
  match v with
  | VNone => false
  | VBool b => b
  | VInt z => negb (z =? 0)
  | VFloat f => float_truthy f
  | VStr s => PyStr.truthy s
  | VList l => match l with [] => false | _ => true end
  | VDict d => negb (bool_decide (d = ∅))
  end.

(** ** The world outside the repository *)

(** What [requests.get] answers: [raise_for_status] is what
    [response.raise_for_status()] raises (nothing on a success status),
    [content] is [response.content]. *)
Record Response := { raise_for_status : option pyexn; content : bytes }.

(** A waveform tensor: [shape_last] is [wav.shape[-1]]. *)
Record Wav := { shape_last : Z; samples : bytes }.

(** The loaded [ChatterboxTTS] object: [sr] and [generate].  [generate] reads
    the reference audio from the filesystem it is given. *)
Record Model := {
  sr : Z;
  generate : gmap string bytes → string → option string →
             pyfloat → pyfloat → pyexn + Wav
}.

(** What [with open(path, 'wb') as f: f.write(data)] comes to: the file
    holds [data]; or [open] raised and nothing was created; or [open]
    created (or truncated) the file and [f.write] raised, leaving [partial]
    in it. *)
Inductive write_result :=
| Written
| NotOpened (e : pyexn)
| Truncated (partial : bytes) (e : pyexn).

Record World := {
  uuid4 : string;                                   (* str(uuid.uuid4()) *)
  requests_get : string → pyexn + Response;         (* requests.get(url, timeout=30) *)
  b64decode : string → pyexn + bytes;               (* base64.b64decode *)
  b64encode : bytes → string;                       (* base64.b64encode(..).decode('utf-8') *)
  ta_save : string → Wav → Z → pyexn + bytes;       (* the file ta.save writes *)
  subprocess_run : gmap string bytes → list string → pyexn + bytes;
                                                    (* the file ffmpeg writes; check=True *)
  put_object : string → string → bytes → string → option pyexn;
                                                    (* r2_client.put_object *)
  file_write : string → bytes → write_result;       (* open(path, 'wb') and f.write(data) *)
  remove_error : string → option pyexn;             (* what os.remove raises on a file that is there *)
  float_of_unicode : string → option pyfloat;       (* float(s), s with a character above U+007F *)
  repr_str : string → string                        (* repr(s), s with a character above U+007F *)
}.

(** ** [float(x)] *)

Module PyFloat.

Definition is_ascii (s : string) : bool :=
  forallb (λ c, (N_of_ascii c <? 128)%N) (list_ascii_of_string s).

(** The whitespace [float] skips around an ASCII string: TAB, LF, VT, FF,
    CR and space (FS, GS, RS and US are not skipped here). *)
Definition is_space (c : ascii) : bool :=
  let n := N_of_ascii c in
  ((9 <=? n) && (n <=? 13) || (n =? 32))%N.

Fixpoint lstrip (s : string) : string :=
  match s with
  | String c s' => if is_space c then lstrip s' else s
  | EmptyString => EmptyString
  end.

Fixpoint all_space (s : string) : bool :=
  match s with
  | String c s' => is_space c && all_space s'
  | EmptyString => true
  end.

Fixpoint rstrip (s : string) : string :=
  match s with
  | String c s' =>
      if is_space c && all_space s' then EmptyString
      else String c (rstrip s')
  | EmptyString => EmptyString
  end.

Definition strip (s : string) : string := rstrip (lstrip s).

Definition is_digit (c : ascii) : bool :=
  let n := N_of_ascii c in ((48 <=? n) && (n <=? 57))%N.

Definition digit_val (c : ascii) : N := (N_of_ascii c - 48)%N.

(** The rest of a digit run: digits, each optionally preceded by one
    underscore.  Returns the accumulated value, the number of digits read
    and what is left. *)
Fixpoint scan_digits (acc : N) (cnt : nat) (s : string) : N * nat * string :=
  match s with
  | String c s' =>
      if is_digit c then scan_digits (acc * 10 + digit_val c)%N (S cnt) s'
      else if Ascii.eqb c "_" then
        match s' with
        | String d s'' =>
            if is_digit d
            then scan_digits (acc * 10 + digit_val d)%N (S cnt) s''
            else (acc, cnt, s)
        | EmptyString => (acc, cnt, s)
        end
      else (acc, cnt, s)
  | EmptyString => (acc, cnt, s)
  end.

(** A digit run starts with a digit. *)
Definition digit_run (s : string) : option (N * nat * string) :=
  match s with
  | String c s' =>
      if is_digit c then Some (scan_digits (digit_val c) 1 s') else None
  | EmptyString => None
  end.

Definition sign (s : string) : bool * string :=
  match s with
  | String "-" s' => (true, s')
  | String "+" s' => (false, s')
  | _ => (false, s)
  end.

(** Optional exponent, then the end of the string. *)
Definition exponent (s : string) : option Z :=
  match s with
  | EmptyString => Some 0
  | String c s' =>
      if Ascii.eqb c "e" || Ascii.eqb c "E" then
        let '(neg, s'') := sign s' in
        match digit_run s'' with
        | Some (e, _, EmptyString) =>
            Some (if neg then - Z.of_N e else Z.of_N e)
        | _ => None
        end
      else None
  end.

(** [digits [. [digits]] [exponent]] or [. digits [exponent]] *)
Definition decimal (neg : bool) (s : string) : option pyfloat :=
  let '(ip, ni, r1) :=
    match digit_run s with Some x => x | None => (0%N, O, s) end in
  let '(fp, nf, r2) :=
    match r1 with
    | String "." r =>
        match digit_run r with
        | Some (v, n, r') => (v, n, r')
        | None => (0%N, O, r)
        end
    | _ => (0%N, O, r1)
    end in
  match ni, nf with
  | O, O => None
  | _, _ =>
      match exponent r2 with
      | Some e =>
          Some (FDec neg (ip * 10 ^ N.of_nat nf + fp)%N (e - Z.of_nat nf))
      | None => None
      end
  end.

(** [float(s)] for an ASCII string: surrounding whitespace, a sign, then
    [inf], [infinity] or [nan] in any case, or a decimal literal. *)
Definition of_ascii (s : string) : option pyfloat :=
  let '(neg, r) := sign (strip s) in
  let l := PyStr.lower r in
  if String.eqb l "inf" || String.eqb l "infinity" then Some (FInf neg)
  else if String.eqb l "nan" then Some FNan
  else decimal neg r.

(** [float(s)]: a string with a character above U+007F may hold other
    decimal digits and other whitespace, which the tables of the
    interpreter decide. *)
Definition of_str (w : World) (s : string) : option pyfloat :=
  if is_ascii s then of_ascii s else float_of_unicode w s.

Definition hex_digit (n : N) : ascii :=
  ascii_of_N (if (n <? 10)%N then 48 + n else 87 + n).

(** One character of [repr(s)] inside the quote [q]. *)
Definition repr_char (q c : ascii) : string :=
  let n := N_of_ascii c in
  if Ascii.eqb c q || Ascii.eqb c "\" then String "\" (String c "")
  else if (n =? 9)%N then "\t"
  else if (n =? 10)%N then "\n"
  else if (n =? 13)%N then "\r"
  else if ((n <? 32) || (n =? 127))%N
  then String "\" (String "x" (String (hex_digit (n / 16))
                                   (String (hex_digit (n mod 16)) "")))
  else String c "".

Fixpoint repr_body (q : ascii) (s : string) : string :=
  match s with
  | String c s' => repr_char q c ++ repr_body q s'
  | EmptyString => EmptyString
  end.

Definition contains (c : ascii) (s : string) : bool :=
  existsb (Ascii.eqb c) (list_ascii_of_string s).

(** [repr(s)] for an ASCII string: in double quotes when [s] has a single
    quote and no double quote, in single quotes otherwise. *)
Definition repr_ascii (s : string) : string :=
  let q : ascii :=
    if contains "'" s && negb (contains "034" s) then "034"%char
    else "'"%char in
  String q (repr_body q s ++ String q "").

Definition repr (w : World) (s : string) : string :=
  if is_ascii s then repr_ascii s else repr_str w s.

(** Integers from [2^1024 - 2^970] on round out of the double range. *)
Definition int_overflows (z : Z) : bool :=
  2 ^ 1024 - 2 ^ 970 <=? Z.abs z.

Definition py_float (w : World) (v : pyval) : pyexn + pyfloat :=
  match v with
  | VFloat f => inr f
  | VInt z =>
      if int_overflows z
      then inl (PyExn "OverflowError" "int too large to convert to float")
      else inr (FDec (z <? 0) (Z.abs_N z) 0)
  | VBool b => inr (FDec false (if b then 1 else 0)%N 0)
  | VStr s =>
      match of_str w s with
      | Some f => inr f
      | None =>
          inl (PyExn "ValueError"
                     ("could not convert string to float: " ++ repr w s))
      end
  | _ =>
      inl (PyExn "TypeError"
             ("float() argument must be a string or a real number, not '"
              ++ type_name v ++ "'"))
  end.

End PyFloat.

(** ** Module-level code: configuration and model loading *)

Record Globals := {
  r2_client : bool;            (* [r2_client] is not [None] *)
  R2_BUCKET : string;
  CDN_URL : string;
  MODEL : option Model;
  SAMPLE_RATE : Z
}.

(** What the process finds when it starts, on a machine where the imports
    of the module, the two [os.makedirs] calls and the queries of the
    device's name and memory go through: what is left to vary is the
    environment, the store client, the presence of CUDA and the loading of
    the model. *)
Record Boot := {
  environ : gmap string string;
  boto3_client : option pyexn;         (* what [boto3.client(...)] raises *)
  cuda_is_available : bool;
  from_pretrained : pyexn + Model      (* importing and loading the model *)
}.

Definition INPUT_DIR : string := "/app/input".
Definition OUTPUT_DIR : string := "/app/output".

Definition getenv_truthy (b : Boot) (k : string) : bool :=
  match environ b !! k with Some v => PyStr.truthy v | None => false end.

Definition init_r2_client (b : Boot) : bool :=
  if getenv_truthy b "R2_ENDPOINT" && getenv_truthy b "R2_ACCESS_KEY_ID"
     && getenv_truthy b "R2_SECRET_ACCESS_KEY"
  then match boto3_client b with None => true | Some _ => false end
  else false.

Definition check_gpu (b : Boot) : pyexn + string :=
  if negb (cuda_is_available b)
  then inl (PyExn "RuntimeError"
              "❌ CUDA is required but not available. This handler requires a GPU.")
  else inr "cuda".

(** The module body on such a machine: the [RuntimeError] of [check_gpu]
    aborts the start, an exception of the model loading is caught. *)
Definition startup (b : Boot) : pyexn + Globals :=
  let r2 := init_r2_client b in
  let bucket := default "cdn" (environ b !! "R2_BUCKET") in
  let cdn := default "https://cdn.example.com" (environ b !! "CDN_URL") in
  match check_gpu b with
  | inl e => inl e
  | inr _ =>
      match from_pretrained b with
      | inr m => inr {| r2_client := r2; R2_BUCKET := bucket; CDN_URL := cdn;
                        MODEL := Some m; SAMPLE_RATE := sr m |}
      | inl _ => inr {| r2_client := r2; R2_BUCKET := bucket; CDN_URL := cdn;
                        MODEL := None; SAMPLE_RATE := 24000 |}
      end
  end.

(** ** Effects *)

(** One entry per external call, with its outcome, per file the handler
    itself creates or removes, and per [os.remove] that raised on a file
    that is there. *)
Inductive Event :=
| EvHttpGet (url : string) (r : pyexn + Response)
| EvB64Decode (s : string) (err : option pyexn)
| EvGenerate (text : string) (prompt : option string) (err : option pyexn)
| EvSave (path : string) (err : option pyexn)
| EvTranscode (argv : list string) (err : option pyexn)
| EvPutObject (bucket key : string) (err : option pyexn)
| EvWrite (path : string)
| EvRemove (path : string)
| EvRemoveFailed (path : string) (e : pyexn).

(** The filesystem is a finite map from paths to contents; [temp_audio_file]
    is the handler's local variable of that name, which the [finally] block
    reads after the [try] body has assigned it. *)
Record St := {
  fs : gmap string bytes;
  trace : list Event;
  temp_audio_file : option string
}.

Inductive Flow (A : Type) :=
| Next (a : A)            (* falls through to the next statement *)
| Return (r : pydict)     (* [return r] of the handler *)
| Raise (e : pyexn).
Arguments Next {A} a.
Arguments Return {A} r.
Arguments Raise {A} e.

Definition M (A : Type) : Type := St → Flow A * St.

Definition pure {A} (a : A) : M A := λ st, (Next a, st).
Definition return_ {A} (r : pydict) : M A := λ st, (Return r, st).
Definition raise {A} (e : pyexn) : M A := λ st, (Raise e, st).

Definition bind {A B} (m : M A) (k : A → M B) : M B := λ st,
  match m st with
  | (Next a, st') => k a st'
  | (Return r, st') => (Return r, st')
  | (Raise e, st') => (Raise e, st')
  end.

Notation "x <~ m ;; k" := (bind m (λ x, k))
  (at level 100, m at next level, right associativity).

(** [try: m  except Exception as e: h e] (also the bare [except:]). *)
Definition try_except {A} (m : M A) (h : pyexn → M A) : M A := λ st,
  match m st with
  | (Raise e, st') => h e st'
  | r => r
  end.

(** [try: m  finally: c]: [c] runs on every way out of [m]. *)
Definition try_finally {A} (m : M A) (c : M unit) : M A := λ st,
  let '(fl, st') := m st in
  match c st' with
  | (Next _, st'') => (fl, st'')
  | (Return r, st'') => (Return r, st'')
  | (Raise e, st'') => (Raise e, st'')
  end.

Definition lift {A} (x : pyexn + A) : M A :=
  match x with inl e => raise e | inr a => pure a end.

Definition log (ev : Event) : M unit := λ st,
  (Next tt, {| fs := fs st; trace := trace st ++ [ev];
               temp_audio_file := temp_audio_file st |}).

Definition err_of {A} (x : pyexn + A) : option pyexn :=
  match x with inl e => Some e | inr _ => None end.

Definition FileNotFoundError (path : string) : pyexn :=
  PyExn "FileNotFoundError"
        ("[Errno 2] No such file or directory: '" ++ path ++ "'").

(** A file appears (or is replaced) at [path]. *)
Definition put_file (path : string) (data : bytes) : M unit := λ st,
  (Next tt, {| fs := <[path := data]> (fs st); trace := trace st;
               temp_audio_file := temp_audio_file st |}).

(** [with open(path, 'rb') as f: f.read()] *)
Definition read_file (path : string) : M bytes := λ st,
  match fs st !! path with
  | Some data => (Next data, st)
  | None => (Raise (FileNotFoundError path), st)
  end.

(** [os.path.exists(path)] *)
Definition os_path_exists (path : string) : M bool := λ st,
  (Next (bool_decide (is_Some (fs st !! path))), st).

Definition set_temp_audio_file (v : option string) : M unit := λ st,
  (Next tt, {| fs := fs st; trace := trace st; temp_audio_file := v |}).

Definition get_temp_audio_file : M (option string) := λ st,
  (Next (temp_audio_file st), st).

Definition get_fs : M (gmap string bytes) := λ st, (Next (fs st), st).

(** ** Methods of job values *)

Definition py_strip (v : pyval) : M string :=
  match v with
  | VStr s => pure (PyStr.strip s)
  | _ => raise (AttributeError v "strip")
  end.

Definition py_lower (v : pyval) : M string :=
  match v with
  | VStr s => pure (PyStr.lower s)
  | _ => raise (AttributeError v "lower")
  end.

(** The job's input is used through [.get], [in] and [[...]]: the first
    [.get] raises on anything that is not a dict. *)
Definition py_dict (v : pyval) : M pydict :=
  match v with
  | VDict d => pure d
  | _ => raise (AttributeError v "get")
  end.

Definition truediv (n d : Z) : pyexn + pyfloat :=
  if d =? 0 then inl (PyExn "ZeroDivisionError" "division by zero")
  else inr (FDiv n d).

(** The job envelope of the serverless runtime: [id] is a string when it is
    there, [input] is any JSON value. *)
Record Job := { key_id : option string; key_input : option pyval }.

Definition error_response (msg : string) : pydict := {["error" := VStr msg]}.

(** ** The functions of [handler.py] *)

Section Handler.

Context (w : World) (g : Globals).

(** [with open(path, 'wb') as f: f.write(data)] *)
Definition write_file (path : string) (data : bytes) : M unit :=
  match file_write w path data with
  | Written => _ <~ log (EvWrite path) ;; put_file path data
  | NotOpened e => raise e
  | Truncated partial e =>
      _ <~ log (EvWrite path) ;; _ <~ put_file path partial ;; raise e
  end.

(** [os.remove(path)] *)
Definition os_remove (path : string) : M unit := λ st,
  match fs st !! path with
  | Some _ =>
      match remove_error w path with
      | None => (Next tt, {| fs := delete path (fs st);
                             trace := trace st ++ [EvRemove path];
                             temp_audio_file := temp_audio_file st |})
      | Some e => (Raise e, {| fs := fs st;
                               trace := trace st ++ [EvRemoveFailed path e];
                               temp_audio_file := temp_audio_file st |})
      end
  | None => (Raise (FileNotFoundError path), st)
  end.

(** [requests.get(url, timeout=30)] *)
Definition call_requests_get (url : string) : M Response :=
  let r := requests_get w url in
  _ <~ log (EvHttpGet url r) ;; lift r.

Definition call_raise_for_status (response : Response) : M unit :=
  match raise_for_status response with
  | Some e => raise e
  | None => pure tt
  end.

Definition call_b64decode (s : string) : M bytes :=
  let r := b64decode w s in
  _ <~ log (EvB64Decode s (err_of r)) ;; lift r.

(** [MODEL.generate(text, [audio_prompt_path=...,] exaggeration=..., cfg_weight=...)] *)
Definition call_generate (model : Model) (text : string)
    (audio_prompt_path : option string) (exaggeration cfg_weight : pyfloat)
    : M Wav :=
  files <~ get_fs ;;
  let r := generate model files text audio_prompt_path exaggeration cfg_weight in
  _ <~ log (EvGenerate text audio_prompt_path (err_of r)) ;; lift r.

(** [ta.save(path, wav, SAMPLE_RATE)]; a failed call leaves no file. *)
Definition call_ta_save (path : string) (wav : Wav) (rate : Z) : M unit :=
  let r := ta_save w path wav rate in
  _ <~ log (EvSave path (err_of r)) ;;
  data <~ lift r ;;
  put_file path data.

Definition ffmpeg_argv (src dst : string) : list string :=
  ["ffmpeg"; "-y"; "-i"; src; "-codec:a"; "libmp3lame"; "-qscale:a"; "2"; dst].

(** [subprocess.run([...], check=True, capture_output=True)]: ffmpeg
    writes [dst] and leaves [src] alone; a failed run leaves no file. *)
Definition call_ffmpeg (src dst : string) : M unit :=
  files <~ get_fs ;;
  let r := subprocess_run w files (ffmpeg_argv src dst) in
  _ <~ log (EvTranscode (ffmpeg_argv src dst) (err_of r)) ;;
  data <~ lift r ;;
  put_file dst data.

Definition call_put_object (bucket key : string) (body : bytes)
    (content_type : string) : M unit :=
  let r := put_object w bucket key body content_type in
  _ <~ log (EvPutObject bucket key r) ;;
  match r with Some e => raise e | None => pure tt end.

(** [upload_to_r2(file_path, job_id, file_ext)]: the public URL, or [None]. *)
Definition upload_to_r2 (file_path job_id file_ext : string)
    : M (option string) :=
  if negb (r2_client g) then pure None
  else
    try_except
      (let file_name := "tts/" ++ job_id ++ "." ++ file_ext in
       let content_type :=
         if String.eqb file_ext "wav" then "audio/wav" else "audio/mpeg" in
       body <~ read_file file_path ;;
       _ <~ call_put_object (R2_BUCKET g) file_name body content_type ;;
       let public_url := CDN_URL g ++ "/" ++ file_name in
       pure (Some public_url))
      (λ e, pure None).

(** [download_audio(url, save_path)] *)
Definition download_audio (url save_path : string) : M string :=
  if negb (PyStr.startswith_url url)
  then raise (PyExn "ValueError" "Invalid URL")
  else
    response <~ call_requests_get url ;;
    _ <~ call_raise_for_status response ;;
    _ <~ write_file save_path (content response) ;;
    pure save_path.

(** Lines 177-181: the effective output format. *)
Definition normalize_output_format (d : pydict) : M string :=
  output_format <~ py_lower (default (VStr "wav") (d !! "output_format")) ;;
  if negb (String.eqb output_format "wav" || String.eqb output_format "mp3")
  then pure "wav"
  else pure output_format.

Definition prompt_path (job_id : string) : string :=
  PyStr.os_path_join INPUT_DIR (job_id ++ "_prompt.wav").

Definition output_path_of (job_id output_format : string) : string :=
  PyStr.os_path_join OUTPUT_DIR (job_id ++ "." ++ output_format).

Definition temp_wav_path (job_id : string) : string :=
  PyStr.os_path_join OUTPUT_DIR (job_id ++ "_temp.wav").

(** Lines 194-217: the input resolver; its value is [audio_prompt_path]. *)
Definition resolve_audio_prompt (d : pydict) (job_id : string)
    : M (option string) :=
  match d !! "audio_prompt" with
  | Some v =>
      audio_prompt_value <~ py_strip v ;;
      if PyStr.startswith_url audio_prompt_value then
        try_except
          (_ <~ set_temp_audio_file (Some (prompt_path job_id)) ;;
           _ <~ download_audio audio_prompt_value (prompt_path job_id) ;;
           pure (Some (prompt_path job_id)))
          (λ e, return_ (error_response
                   ("Failed to download audio prompt: " ++ str_exn e)))
      else
        try_except
          (audio_bytes <~ call_b64decode audio_prompt_value ;;
           _ <~ set_temp_audio_file (Some (prompt_path job_id)) ;;
           _ <~ write_file (prompt_path job_id) audio_bytes ;;
           pure (Some (prompt_path job_id)))
          (λ e, return_ (error_response
                   ("Invalid base64 audio_prompt: " ++ str_exn e)))
  | None => pure None
  end.

(** Lines 224-243: synthesis; the log line divides by [SAMPLE_RATE]. *)
Definition synthesize (model : Model) (text : string)
    (audio_prompt_path : option string) (exaggeration cfg_weight : pyfloat)
    : M Wav :=
  try_except
    (wav <~ call_generate model text
              (match audio_prompt_path with
               | Some p => if PyStr.truthy p then Some p else None
               | None => None
               end) exaggeration cfg_weight ;;
     _ <~ lift (truediv (shape_last wav) (SAMPLE_RATE g)) ;;
     pure wav)
    (λ e, return_ (error_response ("TTS generation failed: " ++ str_exn e))).

(** Lines 250-271: encoding. *)
Definition save_audio (job_id output_format : string) (wav : Wav) : M unit :=
  let output_path := output_path_of job_id output_format in
  try_except
    (if String.eqb output_format "wav" then
       call_ta_save output_path wav (SAMPLE_RATE g)
     else
       let temp_wav := temp_wav_path job_id in
       _ <~ call_ta_save temp_wav wav (SAMPLE_RATE g) ;;
       _ <~ call_ffmpeg temp_wav output_path ;;
       os_remove temp_wav)
    (λ e, return_ (error_response ("Failed to save audio: " ++ str_exn e))).

(** Lines 276-305: publishing; every path ends in [return result]. *)
Definition publish (job_id output_format : string) (return_base64 : pyval)
    (wav : Wav) : M Empty_set :=
  let output_path := output_path_of job_id output_format in
  duration <~ lift (truediv (shape_last wav) (SAMPLE_RATE g)) ;;
  let result : pydict :=
    <["format" := VStr output_format]>
      (<["sample_rate" := VInt (SAMPLE_RATE g)]>
         {["duration" := VFloat duration]}) in
  _ <~ (if r2_client g && negb (py_truthy return_base64) then
          public_url <~ upload_to_r2 output_path job_id output_format ;;
          match public_url with
          | Some url =>
              if PyStr.truthy url then
                _ <~ try_except (os_remove output_path) (λ _, pure tt) ;;
                return_ (<["audio_url" := VStr url]> result)
              else pure tt
          | None => pure tt
          end
        else pure tt) ;;
  data <~ read_file output_path ;;
  let audio_b64 := b64encode w data in
  _ <~ try_except (os_remove output_path) (λ _, pure tt) ;;
  return_ (<["audio" := VStr audio_b64]> result).

(** Lines 307-313: the [finally] block. *)
Definition cleanup : M unit :=
  temp <~ get_temp_audio_file ;;
  match temp with
  | Some p =>
      there <~ os_path_exists p ;;
      if PyStr.truthy p && there
      then try_except (os_remove p) (λ _, pure tt)
      else pure tt
  | None => pure tt
  end.

Definition half : pyfloat := FDec false 5 (-1).

Record Params := {
  text : string;
  exaggeration : pyfloat;
  cfg_weight : pyfloat;
  output_format : string;
  return_base64 : pyval
}.

(** Lines 170-181: the parameters of the job, or the validation error. *)
Definition extract_parameters (d : pydict) : M Params :=
  text <~ py_strip (default (VStr "") (d !! "text")) ;;
  if negb (PyStr.truthy text)
  then return_ (error_response "Missing required parameter: text")
  else
    exaggeration <~
      lift (PyFloat.py_float w (default (VFloat half) (d !! "exaggeration"))) ;;
    cfg_weight <~
      lift (PyFloat.py_float w (default (VFloat half) (d !! "cfg_weight"))) ;;
    output_format <~ normalize_output_format d ;;
    let return_base64 := default (VBool false) (d !! "return_base64") in
    pure {| text := text; exaggeration := exaggeration;
            cfg_weight := cfg_weight; output_format := output_format;
            return_base64 := return_base64 |}.

Definition job_input_of (job : Job) : pyval :=
  default (VDict ∅) (key_input job).

Definition job_id_of (job : Job) : string :=
  default (uuid4 w) (key_id job).

(** [handler(job)] *)
Definition handler (job : Job) : M Empty_set :=
  let job_input := job_input_of job in
  let job_id := job_id_of job in
  match MODEL g with
  | None => return_ (error_response "Model failed to load at startup")
  | Some model =>
      d <~ py_dict job_input ;;
      p <~ extract_parameters d ;;
      _ <~ set_temp_audio_file None ;;
      try_finally
        (audio_prompt_path <~ resolve_audio_prompt d job_id ;;
         wav <~ synthesize model (text p) audio_prompt_path
                  (exaggeration p) (cfg_weight p) ;;
         _ <~ save_audio job_id (output_format p) wav ;;
         publish job_id (output_format p) (return_base64 p) wav)
        cleanup
  end.

End Handler.

(** What a call of the handler comes to. *)
Inductive Outcome :=
| Returned (r : pydict)
| Raised (e : pyexn).

Record Run := { outcome : Outcome; files : gmap string bytes; events : list Event }.

Definition outcome_of (fl : Flow Empty_set) : Outcome :=
  match fl with
  | Next x => match x with end
  | Return r => Returned r
  | Raise e => Raised e
  end.

Definition run_of (r : Flow Empty_set * St) : Run :=
  {| outcome := outcome_of r.1; files := fs r.2; events := trace r.2 |}.

Definition initial (fs0 : gmap string bytes) : St :=
  {| fs := fs0; trace := []; temp_audio_file := None |}.

(** One job run on a filesystem [fs0]. *)
Definition run_handler (w : World) (g : Globals) (job : Job)
    (fs0 : gmap string bytes) : Run :=
  run_of (handler w g job (initial fs0)).

(** The fetch of a reference audio fails when [requests.get] raises or
    the response has an error status. *)
Definition fetch_failed (r : pyexn + Response) : bool :=
  match r with
  | inl _ => true
  | inr response =>
      match raise_for_status response with Some _ => true | None => false end
  end.

(** The [text] field is absent, empty or whitespace-only. *)
Definition text_blank (d : pydict) : bool :=
  match d !! "text" with
  | None => true
  | Some (VStr s) => PyStr.whitespace_only s
  | Some _ => false
  end.

(** ** Observations on traces *)

(** How many calls of one kind a trace holds. *)
Definition count_calls (kind : Event → bool) (l : list Event) : nat :=
  List.length (List.filter kind l).

Definition is_http_get (ev : Event) : bool :=
  match ev with EvHttpGet _ _ => true | _ => false end.

Definition is_b64decode (ev : Event) : bool :=
  match ev with EvB64Decode _ _ => true | _ => false end.

Definition is_generate (ev : Event) : bool :=
  match ev with EvGenerate _ _ _ => true | _ => false end.

Definition is_save (ev : Event) : bool :=
  match ev with EvSave _ _ => true | _ => false end.

Definition is_transcode (ev : Event) : bool :=
  match ev with EvTranscode _ _ => true | _ => false end.

Definition is_put_object (ev : Event) : bool :=
  match ev with EvPutObject _ _ _ => true | _ => false end.

(** ** A concrete world, for examples *)

Module Sample.

Definition model : Model :=
  {| sr := 24000;
     generate := λ files text prompt _ _,
       if String.eqb text "boom"
       then inl (PyExn "RuntimeError" "CUDA out of memory")
       else inr {| shape_last := 48000; samples := "pcm" |} |}.

(** A world whose encoder, transcoder and store work or fail as the three
    flags say; [removal] is what [os.remove] raises on a file that is there
    and [writer] is what writing a file comes to. *)
Definition world_with (encoder_ok transcoder_ok upload_ok : bool)
    (removal : string → option pyexn) (writer : string → bytes → write_result)
    : World :=
  {| uuid4 := "3f2b8c1e-0000-4000-8000-000000000000";
     requests_get := λ url,
       if String.eqb url "https://example.com/voice.wav"
       then inr {| raise_for_status := None; content := "RIFFvoice" |}
       else if String.eqb url "https://example.com/gone.wav"
       then inr {| raise_for_status :=
                     Some (PyExn "HTTPError" "404 Client Error: Not Found");
                   content := "" |}
       else inl (PyExn "ConnectionError" "Max retries exceeded");
     b64decode := λ s,
       if String.eqb s "UklGRg==" then inr "RIFF"
       else inl (PyExn "Error" "Incorrect padding");
     b64encode := λ data, "b64:" ++ data;
     ta_save := λ path wav rate,
       if encoder_ok then inr ("RIFF" ++ samples wav)
       else inl (PyExn "RuntimeError" "Couldn't open file for writing");
     subprocess_run := λ files argv,
       if transcoder_ok then inr "ID3"
       else inl (PyExn "CalledProcessError"
                   "Command returned non-zero exit status 1.");
     put_object := λ bucket key body content_type,
       if upload_ok then None
       else Some (PyExn "EndpointConnectionError"
                    "Could not connect to the endpoint URL");
     file_write := writer;
     remove_error := removal;
     float_of_unicode := λ s, None;
     repr_str := λ s, "'" ++ s ++ "'" |}.

(** The same on an operating system that writes and removes every file it
    is asked to. *)
Definition world (encoder_ok transcoder_ok upload_ok : bool) : World :=
  world_with encoder_ok transcoder_ok upload_ok (λ _, None) (λ _ _, Written).

Definition PermissionError (path : string) : pyexn :=
  PyExn "PermissionError" ("[Errno 13] Permission denied: '" ++ path ++ "'").

(** An operating system that refuses to remove any file. *)
Definition world_no_removal : World :=
  world_with true true true (λ path, Some (PermissionError path))
    (λ _ _, Written).

(** A disk that fills up while a file is written. *)
Definition world_disk_full : World :=
  world_with true true true (λ _, None)
    (λ path data,
       Truncated "" (PyExn "OSError" "[Errno 28] No space left on device")).

(** U+00A0 (no-break space) and U+3000 (ideographic space). *)
Definition nbsp : string := String "194" (String "160" "").
Definition ideographic_space : string :=
  String "227" (String "128" (String "128" "")).

Definition globals (r2 : bool) : Globals :=
  {| r2_client := r2; R2_BUCKET := "cdn";
     CDN_URL := "https://cdn.example.com";
     MODEL := Some model; SAMPLE_RATE := 24000 |}.

Definition job (fields : list (string * pyval)) : Job :=
  {| key_id := Some "j1"; key_input := Some (VDict (list_to_map fields)) |}.

Definition job_plain : Job :=
  job [("text", VStr "Hello world")].

(** Voice cloning from an embedded reference audio. *)
Definition job_clone : Job :=
  job [("text", VStr "Hello world"); ("audio_prompt", VStr "UklGRg==")].

(** The same, with a text the model fails on. *)
Definition job_clone_boom : Job :=
  job [("text", VStr "boom"); ("audio_prompt", VStr "UklGRg==")].

Definition job_clone_mp3 : Job :=
  job [("text", VStr "Hello world"); ("audio_prompt", VStr "UklGRg==");
       ("output_format", VStr "mp3")].

Definition job_url : Job :=
  job [("text", VStr "Hello world");
       ("audio_prompt", VStr " https://example.com/voice.wav ")].

Definition job_url_gone : Job :=
  job [("text", VStr "Hello world");
       ("audio_prompt", VStr "https://example.com/gone.wav")].

Definition job_MP3 : Job :=
  job [("text", VStr "Hello world"); ("output_format", VStr "MP3")].

Definition job_ogg : Job :=
  job [("text", VStr "Hello world"); ("output_format", VStr "ogg")].

Definition job_blank_text : Job :=
  job [("text", VStr "  	 ")].

Definition job_blank_unicode_text : Job :=
  job [("text", VStr (nbsp ++ " " ++ ideographic_space))].

(** The URL of [job_url] between a no-break space and an ideographic
    space. *)
Definition job_url_unicode : Job :=
  job [("text", VStr "Hello world");
       ("audio_prompt",
        VStr (nbsp ++ "https://example.com/voice.wav" ++ ideographic_space))].

Definition job_bad_exaggeration : Job :=
  job [("text", VStr "Hello world"); ("exaggeration", VStr "abc")].

Definition job_null_exaggeration : Job :=
  job [("text", VStr "Hello world"); ("exaggeration", VNone)].

Definition job_numeric_text : Job :=
  job [("text", VInt 42)].

(** The parameters of [job_url] and of [job_clone]. *)
Definition params_hello : Params :=
  {| text := "Hello world"; exaggeration := half; cfg_weight := half;
     output_format := "wav"; return_base64 := VBool false |}.

(** A machine with a GPU on which the model does not load. *)
Definition boot_no_model : Boot :=
  {| environ := ∅; boto3_client := None; cuda_is_available := true;
     from_pretrained := inl (PyExn "OSError" "Can't load weights") |}.

End Sample.

(** More sample data: a machine with the store credentials set, and the
    input of a job that gives the text only. *)
Module SampleBoot.

Definition with_store : Boot :=
  {| environ := list_to_map [("R2_ENDPOINT", "https://r2.example.com");
                             ("R2_ACCESS_KEY_ID", "key");
                             ("R2_SECRET_ACCESS_KEY", "secret")];
     boto3_client := None; cuda_is_available := true;
     from_pretrained := inr Sample.model |}.

Definition globals_with_store : Globals :=
  {| r2_client := true; R2_BUCKET := "cdn";
     CDN_URL := "https://cdn.example.com";
     MODEL := Some Sample.model; SAMPLE_RATE := 24000 |}.

Definition text_only : pydict := {["text" := VStr " Hello world "]}.

End SampleBoot.

(** * Reasoning about runs *)

(** ** Paths of one job never collide *)

Section Paths.

Lemma append_inv_head (s a b : string) : s ++ a = s ++ b → a = b.
Proof.
  induction s as [|c s IH]; simpl; [done|].
  intros H. injection H as H. by apply IH.
Qed.

Lemma append_truthy_r (a b : string) :
  PyStr.truthy b = true → PyStr.truthy (a ++ b) = true.
Proof. destruct a; simpl; [done|]. by intros _. Qed.

Lemma startswith_sep_cons (a : ascii) (s : string) :
  PyStr.startswith "/" (String a s) = bool_decide (a = "/"%char).
Proof.
  unfold PyStr.startswith. cbn -[ascii_dec].
  destruct (ascii_dec "/" a) as [<-|Hne].
  - by destruct s.
  - symmetry. apply bool_decide_eq_false. congruence.
Qed.

(** Whether [job_id ++ suffix] is absolute depends on [job_id] alone when
    the suffix starts with something else than a slash. *)
Lemma startswith_sep_append (job_id : string) (c : ascii) (rest : string) :
  c ≠ "/"%char →
  PyStr.startswith "/" (job_id ++ String c rest)
  = PyStr.startswith "/" job_id.
Proof.
  intros Hc. destruct job_id as [|a job_id].
  - change (PyStr.startswith "/" (String c rest) = false).
    rewrite startswith_sep_cons. by apply bool_decide_eq_false.
  - change (PyStr.startswith "/" (String a (job_id ++ String c rest))
            = PyStr.startswith "/" (String a job_id)).
    by rewrite !startswith_sep_cons.
Qed.

Lemma join_suffixes (dir1 dir2 job_id : string) (c1 c2 : ascii) (r1 r2 : string) :
  c1 ≠ "/"%char → c2 ≠ "/"%char → String c1 r1 ≠ String c2 r2 →
  (∀ x y, dir1 ++ x = dir2 ++ y → dir1 = dir2) →
  PyStr.ends_with_sep dir1 = false → PyStr.truthy dir1 = true →
  PyStr.ends_with_sep dir2 = false → PyStr.truthy dir2 = true →
  PyStr.os_path_join dir1 (job_id ++ String c1 r1)
  ≠ PyStr.os_path_join dir2 (job_id ++ String c2 r2).
Proof.
  intros H1 H2 Hne Hdir E1 T1 E2 T2. unfold PyStr.os_path_join.
  rewrite !startswith_sep_append, E1, E2, T1, T2 by done. simpl.
  destruct (PyStr.startswith "/" job_id).
  - by intros H%append_inv_head.
  - intros H. pose proof (Hdir _ _ H) as ->.
    by do 3 apply append_inv_head in H.
Qed.

Lemma prompt_path_truthy (job_id : string) :
  PyStr.truthy (prompt_path job_id) = true.
Proof.
  unfold prompt_path, PyStr.os_path_join.
  destruct (PyStr.startswith "/" _); [|done].
  by apply append_truthy_r.
Qed.

Lemma prompt_ne_temp_wav (job_id : string) :
  prompt_path job_id ≠ temp_wav_path job_id.
Proof.
  by apply join_suffixes.
Qed.

Lemma prompt_ne_output (job_id fmt : string) :
  prompt_path job_id ≠ output_path_of job_id fmt.
Proof.
  by apply join_suffixes.
Qed.

Lemma temp_wav_ne_output (job_id fmt : string) :
  temp_wav_path job_id ≠ output_path_of job_id fmt.
Proof. by apply join_suffixes. Qed.

End Paths.
(** ** Weakest preconditions for the handler monad *)

Definition wp {A} (m : M A) (st : St) (Q : Flow A → St → Prop) : Prop :=
  Q (m st).1 (m st).2.

Section WpRules.

Context {A B : Type}.
Implicit Types (st : St) (Q : Flow A → St → Prop).

Lemma wp_pure (a : A) st Q : Q (Next a) st → wp (pure a) st Q.
Proof. done. Qed.

Lemma wp_return (r : pydict) st Q : Q (Return r) st → wp (return_ r) st Q.
Proof. done. Qed.

Lemma wp_raise (e : pyexn) st Q : Q (Raise e) st → wp (raise e) st Q.
Proof. done. Qed.

Lemma wp_lift (x : pyexn + A) st Q :
  match x with inl e => Q (Raise e) st | inr a => Q (Next a) st end →
  wp (lift x) st Q.
Proof. by destruct x. Qed.

Lemma wp_bind (m : M B) (k : B → M A) st Q :
  wp m st (λ fl st',
    match fl with
    | Next b => wp (k b) st' Q
    | Return r => Q (Return r) st'
    | Raise e => Q (Raise e) st'
    end) →
  wp (bind m k) st Q.
Proof. unfold wp, bind. by destruct (m st) as [[b|r|e] st']. Qed.

Lemma wp_try_except (m : M A) (h : pyexn → M A) st Q :
  wp m st (λ fl st',
    match fl with
    | Raise e => wp (h e) st' Q
    | _ => Q fl st'
    end) →
  wp (try_except m h) st Q.
Proof. unfold wp, try_except. by destruct (m st) as [[b|r|e] st']. Qed.

Lemma wp_try_finally (m : M A) (c : M unit) st Q :
  wp m st (λ fl st',
    wp c st' (λ fl' st'',
      match fl' with
      | Next _ => Q fl st''
      | Return r => Q (Return r) st''
      | Raise e => Q (Raise e) st''
      end)) →
  wp (try_finally m c) st Q.
Proof.
  unfold wp, try_finally. destruct (m st) as [fl st']. simpl.
  by destruct (c st') as [[b|r|e] st''].
Qed.

End WpRules.

Definition with_event (ev : Event) (st : St) : St :=
  {| fs := fs st; trace := trace st ++ [ev];
     temp_audio_file := temp_audio_file st |}.

Definition with_fs (f : gmap string bytes) (st : St) : St :=
  {| fs := f; trace := trace st; temp_audio_file := temp_audio_file st |}.

(** What an [os.remove] whose exception is swallowed leaves behind, by
    what the operating system answered: the filesystem and the entry of the
    trace. *)
Definition remove_fs (r : option pyexn) (path : string)
    (f : gmap string bytes) : gmap string bytes :=
  match r with None => delete path f | Some _ => f end.

Definition remove_event (r : option pyexn) (path : string) : Event :=
  match r with None => EvRemove path | Some e => EvRemoveFailed path e end.

Section WpPrimitives.

Implicit Types (st : St).

Lemma wp_log ev st Q : Q (Next tt) (with_event ev st) → wp (log ev) st Q.
Proof. done. Qed.

Lemma wp_put_file path data st Q :
  Q (Next tt) (with_fs (<[path := data]> (fs st)) st) →
  wp (put_file path data) st Q.
Proof. done. Qed.

(** The rules of the operations that look a path up take what is known of
    the lookup as a premise of its own. *)
Lemma wp_read_file path st Q o :
  fs st !! path = o →
  match o with
  | Some data => Q (Next data) st
  | None => Q (Raise (FileNotFoundError path)) st
  end →
  wp (read_file path) st Q.
Proof. intros <-. unfold wp, read_file. by destruct (fs st !! path). Qed.

Lemma wp_os_path_exists path st Q o :
  fs st !! path = o →
  match o with
  | Some _ => Q (Next true) st
  | None => Q (Next false) st
  end →
  wp (os_path_exists path) st Q.
Proof. intros <-. unfold wp, os_path_exists. by destruct (fs st !! path). Qed.

Lemma wp_os_remove w path st Q o :
  fs st !! path = o →
  match o with
  | Some _ =>
      match remove_error w path with
      | None => Q (Next tt) (with_event (EvRemove path)
                               (with_fs (delete path (fs st)) st))
      | Some e => Q (Raise e) (with_event (EvRemoveFailed path e) st)
      end
  | None => Q (Raise (FileNotFoundError path)) st
  end →
  wp (os_remove w path) st Q.
Proof.
  intros <-. unfold wp, os_remove.
  by destruct (fs st !! path), (remove_error w path).
Qed.

(** [try: os.remove(path)  except: pass] always falls through. *)
Lemma wp_remove_best_effort w path st Q o :
  fs st !! path = o →
  match o with
  | Some _ =>
      Q (Next tt)
        (with_event (remove_event (remove_error w path) path)
           (with_fs (remove_fs (remove_error w path) path (fs st)) st))
  | None => Q (Next tt) st
  end →
  wp (try_except (os_remove w path) (λ _, pure tt)) st Q.
Proof.
  intros <-. unfold wp, try_except, os_remove.
  by destruct (fs st !! path), (remove_error w path).
Qed.

Lemma wp_set_temp_audio_file v st Q :
  Q (Next tt) {| fs := fs st; trace := trace st; temp_audio_file := v |} →
  wp (set_temp_audio_file v) st Q.
Proof. done. Qed.

Lemma wp_get_temp_audio_file st Q :
  Q (Next (temp_audio_file st)) st → wp get_temp_audio_file st Q.
Proof. done. Qed.

Lemma wp_get_fs st Q : Q (Next (fs st)) st → wp get_fs st Q.
Proof. done. Qed.

End WpPrimitives.

Lemma public_url_truthy (g : Globals) (file_name : string) :
  PyStr.truthy (CDN_URL g ++ "/" ++ file_name) = true.
Proof. by apply append_truthy_r. Qed.

(** A property of every run follows from the weakest precondition of the
    handler on the initial state. *)
Lemma run_handler_wp w g job fs0 (P : Run → Prop) :
  wp (handler w g job) (initial fs0)
     (λ fl st, P {| outcome := outcome_of fl; files := fs st;
                    events := trace st |}) →
  P (run_handler w g job fs0).
Proof. done. Qed.

(** Symbolic execution, statement by statement and in program order. *)
Ltac head_of t :=
  lazymatch t with
  | ?f _ => head_of f
  | _ => t
  end.

Ltac wp_truthy :=
  repeat match goal with
    | |- context [PyStr.truthy (prompt_path ?i)] =>
        rewrite (prompt_path_truthy i)
    | |- context [PyStr.truthy (CDN_URL ?g ++ "/" ++ ?f)] =>
        rewrite (public_url_truthy g f)
    | |- context [String.eqb ?a ?a] => rewrite (String.eqb_refl a)
    end.

Ltac wp_simpl :=
  cbv beta iota zeta; wp_truthy; cbv beta iota zeta;
  cbn [fs trace temp_audio_file with_event with_fs initial fst snd
       text exaggeration cfg_weight output_format return_base64
       andb orb negb].

Section Files.

Implicit Types (m : gmap string bytes) (p q : string).

Lemma files_insert_eq m p data : <[p := data]> m !! p = Some data.
Proof. apply lookup_insert_eq. Qed.

Lemma files_insert_ne m p q data : p ≠ q → <[p := data]> m !! q = m !! q.
Proof. apply lookup_insert_ne. Qed.

Lemma files_delete_eq m p : delete p m !! p = None.
Proof. apply lookup_delete_eq. Qed.

Lemma files_delete_ne m p q : p ≠ q → delete p m !! q = m !! q.
Proof. apply lookup_delete_ne. Qed.

Lemma files_remove_ne r m p q : p ≠ q → remove_fs r p m !! q = m !! q.
Proof. destruct r; [done|]. apply lookup_delete_ne. Qed.

Lemma files_remove_done m p : remove_fs None p m !! p = None.
Proof. apply lookup_delete_eq. Qed.

End Files.

Ltac path_ne :=
  first
    [ apply temp_wav_ne_output | apply prompt_ne_output
    | apply prompt_ne_temp_wav
    | apply not_eq_sym;
      first [ apply temp_wav_ne_output | apply prompt_ne_output
            | apply prompt_ne_temp_wav ] ].

(** Closes a goal whose context equates two distinct paths of the job. *)
Ltac path_ne_false :=
  exfalso;
  match goal with
  | H : _ = _ |- _ => revert H; path_ne
  end.

Ltac map_simpl :=
  repeat first
    [ rewrite files_insert_eq
    | rewrite files_delete_eq
    | rewrite files_remove_done
    | rewrite files_insert_ne by path_ne
    | rewrite files_delete_ne by path_ne
    | rewrite files_remove_ne by path_ne ].

(** What the filesystem holds at a path, as far as it is known. *)
Ltac wp_lookup :=
  cbn [fs with_event with_fs initial]; map_simpl; reflexivity.

(** A case split: by a fact that is already known, else by [destruct]. *)
Ltac wp_case x :=
  first
    [ match goal with H : x = _ |- _ => rewrite H end
    | match goal with
      | H : ?y = _ |- _ =>
          lazymatch x with context [y] => rewrite H end
      end;
      cbn [andb orb negb]; try wp_split_head
    | destruct x eqn:? ]
with wp_split_head :=
  lazymatch goal with
  | |- match ?x with _ => _ end => wp_case x
  | |- wp (if ?b then _ else _) _ _ => wp_case b
  | |- wp (match ?x with _ => _ end) _ _ => wp_case x
  end.

(** The continuation is kept folded while a statement runs. *)
Ltac wp_fold_cont :=
  lazymatch goal with
  | |- wp _ _ ?Q => let K := fresh "K" in set (K := Q)
  end.

Ltac wp_resume :=
  repeat lazymatch goal with
    | |- ?K _ _ => is_var K; subst K; wp_simpl
    end.

Ltac wp_match_head :=
  try lazymatch goal with
    | |- match ?x with _ => _ end => wp_case x
    end.

Ltac wp_step :=
  lazymatch goal with
  | |- wp (bind _ _) _ _ => apply wp_bind; wp_fold_cont
  | |- wp (try_except (os_remove _ _) _) _ _ =>
      eapply wp_remove_best_effort; [wp_lookup|]; cbv beta iota; wp_match_head
  | |- wp (try_except _ _) _ _ => apply wp_try_except; wp_fold_cont
  | |- wp (try_finally _ _) _ _ => apply wp_try_finally; wp_fold_cont
  | |- wp (pure _) _ _ => apply wp_pure
  | |- wp (return_ _) _ _ => apply wp_return
  | |- wp (raise _) _ _ => apply wp_raise
  | |- wp (lift ?x) _ _ => apply wp_lift; wp_case x
  | |- wp (log _) _ _ => apply wp_log
  | |- wp (put_file _ _) _ _ => apply wp_put_file
  | |- wp (read_file _) _ _ =>
      eapply wp_read_file; [wp_lookup|]; cbv beta iota; wp_match_head
  | |- wp (os_remove _ _) _ _ =>
      eapply wp_os_remove; [wp_lookup|]; cbv beta iota; wp_match_head; cbv beta iota;
      wp_match_head
  | |- wp (os_path_exists _) _ _ =>
      eapply wp_os_path_exists; [wp_lookup|]; cbv beta iota; wp_match_head
  | |- wp (set_temp_audio_file _) _ _ => apply wp_set_temp_audio_file
  | |- wp get_temp_audio_file _ _ => apply wp_get_temp_audio_file
  | |- wp get_fs _ _ => apply wp_get_fs
  | |- wp (if ?b then _ else _) _ _ => wp_case b
  | |- wp (match ?x with _ => _ end) _ _ => wp_case x
  | |- wp ?m _ _ =>
      first
        [ match goal with H : m = _ |- _ => rewrite H end
        | let h := head_of m in unfold h ]
  end; wp_simpl; wp_resume.

Ltac wp_run := repeat wp_step.

(** The property of the run is kept folded while the handler runs, and
    unfolded at the end of each path. *)
Ltac wp_start :=
  lazymatch goal with
  | |- context [run_handler ?w ?g ?job ?fs0] =>
      pattern (run_handler w g job fs0);
      lazymatch goal with
      | |- ?P _ =>
          let Post := fresh "Post" in
          set (Post := P); apply (run_handler_wp w g job fs0 Post)
      end
  end.

Ltac leaf_simpl :=
  try lazymatch goal with |- ?P _ => is_var P; subst P; cbv beta end;
  cbn [outcome events files outcome_of app].

(** The answers of the operating system to the removals of a run. *)
Ltac settle_removals :=
  repeat match goal with
    | H : context [remove_event ?r _] |- _ =>
        destruct r eqn:?; cbn [remove_event remove_fs] in *
    | |- context [remove_event ?r _] =>
        destruct r eqn:?; cbn [remove_event remove_fs] in *
    | |- context [remove_fs ?r _ _] =>
        destruct r eqn:?; cbn [remove_event remove_fs] in *
    end.

(** Case analysis on the membership of an event in a trace that is known. *)
Ltac in_trace H :=
  cbn [In] in H; destruct_or?;
  repeat match goal with
    | H' : remove_event ?r _ = _ |- _ =>
        destruct r; cbn [remove_event remove_fs] in *
    end;
  simplify_eq.

(** A removal is none of the external calls that are counted. *)
Section RemovalKinds.

Context (r : option pyexn) (p : string).

Lemma is_http_get_remove : is_http_get (remove_event r p) = false.
Proof. by destruct r. Qed.

Lemma is_b64decode_remove : is_b64decode (remove_event r p) = false.
Proof. by destruct r. Qed.

Lemma is_generate_remove : is_generate (remove_event r p) = false.
Proof. by destruct r. Qed.

Lemma is_save_remove : is_save (remove_event r p) = false.
Proof. by destruct r. Qed.

Lemma is_transcode_remove : is_transcode (remove_event r p) = false.
Proof. by destruct r. Qed.

Lemma is_put_object_remove : is_put_object (remove_event r p) = false.
Proof. by destruct r. Qed.

End RemovalKinds.

Ltac count_simpl :=
  unfold count_calls;
  cbn [List.filter is_http_get is_b64decode is_generate is_save
       is_transcode is_put_object];
  rewrite ?is_http_get_remove, ?is_b64decode_remove, ?is_generate_remove,
    ?is_save_remove, ?is_transcode_remove, ?is_put_object_remove;
  cbn [List.filter List.length].

(** Replace the calls of the world by their outcomes on this path. *)
Ltac use_outcomes :=
  repeat match goal with
    | H : ?x = _ |- context [?x] => rewrite H
    end.

(** Membership of an event in the trace of a run that computes. *)
Ltac in_run := vm_compute; repeat ((left; reflexivity) || right).

(** ** The Python primitives on examples *)

Example strip_examples :
  PyStr.strip "  a b 	" = "a b" ∧ PyStr.strip " 	 " = "" ∧
  PyStr.lower "Mp3" = "mp3" ∧
  PyStr.startswith_url "https://example.com/v.wav" = true ∧
  PyStr.startswith_url "ftp://example.com/v.wav" = false.
Proof. split_and!; vm_compute; reflexivity. Qed.

(** Whitespace above U+007F is trimmed on both sides, other characters of
    several bytes are kept, also the one that shares its first two bytes
    with the spaces U+2000 to U+200A (U+200B, E2 80 8B). *)
Example strip_unicode_examples :
  PyStr.strip (Sample.nbsp ++ "Hello" ++ Sample.ideographic_space) = "Hello" ∧
  PyStr.strip (Sample.nbsp ++ " " ++ Sample.ideographic_space) = "" ∧
  PyStr.whitespace_only (Sample.nbsp ++ " " ++ Sample.ideographic_space) = true ∧
  PyStr.strip (" é" ++ Sample.nbsp) = "é" ∧
  PyStr.strip (String "226" (String "128" (String "139" "")))
  = String "226" (String "128" (String "139" "")) ∧
  PyStr.strip ("a" ++ Sample.nbsp ++ "b ") = "a" ++ Sample.nbsp ++ "b".
Proof. split_and!; vm_compute; reflexivity. Qed.

Example float_examples :
  PyFloat.of_ascii " -1_0.25e+3 " = Some (FDec true 1025 1) ∧
  PyFloat.of_ascii "0.7" = Some (FDec false 7 (-1)) ∧
  PyFloat.of_ascii "1." = Some (FDec false 1 0) ∧
  PyFloat.of_ascii ".5" = Some (FDec false 5 (-1)) ∧
  PyFloat.of_ascii "1e5_0" = Some (FDec false 1 50) ∧
  PyFloat.of_ascii "+Infinity" = Some (FInf false) ∧
  PyFloat.of_ascii "-nan" = Some FNan ∧
  PyFloat.of_ascii "abc" = None ∧ PyFloat.of_ascii "" = None ∧
  PyFloat.of_ascii "1_" = None ∧ PyFloat.of_ascii "1__0" = None ∧
  PyFloat.of_ascii "." = None ∧ PyFloat.of_ascii "1e" = None ∧
  PyFloat.of_ascii (String "028" "1") = None.
Proof. split_and!; vm_compute; reflexivity. Qed.

(** [repr] of ASCII strings, as it appears in the message of [float]. *)
Example repr_examples :
  PyFloat.repr_ascii "abc" = "'abc'" ∧
  PyFloat.repr_ascii "ab'c" = String "034" ("ab'c" ++ String "034" "") ∧
  PyFloat.repr_ascii "a\b" = "'a\\b'" ∧
  PyFloat.repr_ascii (String "028" "1") = "'\x1c1'" ∧
  PyFloat.repr_ascii (String "010" "") = "'\n'" ∧
  PyFloat.repr_ascii (String "127" "") = "'\x7f'" ∧
  PyFloat.repr_ascii (String "'" (String "034" ""))
  = String "'" (String "\" (String "'" (String "034" "'"))).
Proof. split_and!; vm_compute; reflexivity. Qed.

Example float_of_values (w : World) :
  PyFloat.py_float w (VStr " 0.7 ") = inr (FDec false 7 (-1)) ∧
  PyFloat.py_float w (VInt (-3)) = inr (FDec true 3 0) ∧
  PyFloat.py_float w (VBool true) = inr (FDec false 1 0) ∧
  PyFloat.py_float w (VInt (2 ^ 1024))
  = inl (PyExn "OverflowError" "int too large to convert to float") ∧
  PyFloat.py_float w (VStr "ab'c")
  = inl (PyExn "ValueError"
           ("could not convert string to float: "
            ++ String "034" ("ab'c" ++ String "034" ""))) ∧
  PyFloat.py_float w (VStr "é")
  = match float_of_unicode w "é" with
    | Some f => inr f
    | None => inl (PyExn "ValueError"
                     ("could not convert string to float: " ++ repr_str w "é"))
    end.
Proof. split_and!; try reflexivity. Qed.

Example os_path_join_examples :
  PyStr.os_path_join INPUT_DIR "j1_prompt.wav" = "/app/input/j1_prompt.wav" ∧
  PyStr.os_path_join INPUT_DIR "/x_prompt.wav" = "/x_prompt.wav" ∧
  output_path_of "j1" "mp3" = "/app/output/j1.mp3" ∧
  temp_wav_path "j1" = "/app/output/j1_temp.wav".
Proof. by split_and!. Qed.

(** ** Laws and facts about the stages *)

Section MonadLaws.

Context {A B : Type}.

Lemma bind_pure (a : A) (k : A → M B) : bind (pure a) k = k a.
Proof. reflexivity. Qed.

Lemma bind_return (r : pydict) (k : A → M B) : bind (return_ r) k = return_ r.
Proof. reflexivity. Qed.

Lemma bind_raise (e : pyexn) (k : A → M B) : bind (raise e) k = raise e.
Proof. reflexivity. Qed.

End MonadLaws.

(** Trimming on the left keeps whether a string is whitespace only, and
    empties a string that is.  By induction on a bound of the length, as
    one step takes up to three bytes. *)
Lemma lstrip_spec (n : nat) (s : string) :
  (String.length s ≤ n)%nat →
  PyStr.whitespace_only (PyStr.lstrip s) = PyStr.whitespace_only s ∧
  (PyStr.whitespace_only s = true → PyStr.lstrip s = "").
Proof.
  revert s. induction n as [|n IH]; intros s Hlen.
  { destruct s; [done|simpl in Hlen; lia]. }
  destruct s as [|a [|b [|c s3]]]; [done| | |].
  - cbn [PyStr.lstrip PyStr.whitespace_only].
    destruct (PyStr.is_space1 a) eqn:Ha; [done|].
    split; [|done]. cbn [PyStr.whitespace_only]. by rewrite Ha.
  - cbn [PyStr.lstrip PyStr.whitespace_only].
    destruct (PyStr.is_space1 a) eqn:Ha.
    + apply (IH (String b "")). simpl in *. lia.
    + destruct (PyStr.is_space2 a b) eqn:Hab; [done|].
      split; [|done]. cbn [PyStr.whitespace_only]. by rewrite Ha, Hab.
  - cbn [PyStr.lstrip PyStr.whitespace_only].
    destruct (PyStr.is_space1 a) eqn:Ha.
    + apply (IH (String b (String c s3))). simpl in *. lia.
    + destruct (PyStr.is_space2 a b) eqn:Hab.
      * apply (IH (String c s3)). simpl in *. lia.
      * destruct (PyStr.is_space3 a b c) eqn:Habc; simpl.
        -- apply (IH s3). simpl in *. lia.
        -- split; [|done]. by rewrite Ha, Hab, Habc.
Qed.

Lemma whitespace_only_lstrip s :
  PyStr.whitespace_only s = true → PyStr.lstrip s = "".
Proof. apply (lstrip_spec (String.length s)). lia. Qed.

(** A trimmed string is empty exactly when the string is whitespace only. *)
Lemma strip_truthy (s : string) :
  PyStr.truthy (PyStr.strip s) = negb (PyStr.whitespace_only s).
Proof.
  unfold PyStr.strip.
  destruct (lstrip_spec (String.length s) s) as [Hw Hl]; [lia|].
  destruct (PyStr.whitespace_only s) eqn:Hs.
  - by rewrite Hl.
  - destruct (PyStr.lstrip s) as [|a t]; [done|].
    cbn [PyStr.rstrip]. by rewrite Hw.
Qed.

Lemma whitespace_only_strip s :
  PyStr.whitespace_only s = true → PyStr.strip s = "".
Proof. intros H. unfold PyStr.strip. by rewrite whitespace_only_lstrip. Qed.

Lemma normalize_known d s :
  d !! "output_format" = Some (VStr s) →
  PyStr.lower s = "wav" ∨ PyStr.lower s = "mp3" →
  normalize_output_format d = pure (PyStr.lower s).
Proof.
  intros Hs Hknown. unfold normalize_output_format. rewrite Hs.
  cbn [from_option id py_lower]. rewrite bind_pure.
  by destruct Hknown as [-> | ->].
Qed.

Lemma normalize_unknown d s :
  d !! "output_format" = Some (VStr s) →
  PyStr.lower s ≠ "wav" → PyStr.lower s ≠ "mp3" →
  normalize_output_format d = pure "wav".
Proof.
  intros Hs Hwav Hmp3. unfold normalize_output_format. rewrite Hs.
  cbn [from_option id py_lower]. rewrite bind_pure.
  apply String.eqb_neq in Hwav, Hmp3. by rewrite Hwav, Hmp3.
Qed.

Lemma text_blank_strip (d : pydict) (s : string) :
  default (VStr "") (d !! "text") = VStr s →
  text_blank d = negb (PyStr.truthy (PyStr.strip s)).
Proof.
  unfold text_blank. rewrite strip_truthy, negb_involutive.
  destruct (d !! "text") as [[]|]; simpl; intros [= <-]; done.
Qed.

Lemma text_blank_not_str (d : pydict) (v : pyval) :
  default (VStr "") (d !! "text") = v →
  (∀ s, v ≠ VStr s) → text_blank d = false.
Proof.
  unfold text_blank. destruct (d !! "text") as [[]|]; simpl; intros <- H;
    try done; by edestruct H.
Qed.

Lemma known_format_cases (f : string) :
  negb (String.eqb f "wav" || String.eqb f "mp3") = false →
  f = "wav" ∨ f = "mp3".
Proof.
  intros H%negb_false_iff%orb_true_iff.
  destruct H as [H|H]; apply String.eqb_eq in H; auto.
Qed.

Lemma known_format_is_mp3 (f : string) :
  String.eqb f "wav" = false →
  negb (false || String.eqb f "mp3") = false → f = "mp3".
Proof.
  intros _ H. cbn [orb] in H. by apply negb_false_iff, String.eqb_eq in H.
Qed.

(** The effective format on a path where it was read from the job. *)
Ltac fmt_solve :=
  match goal with
  | H : String.eqb ?f "wav" = true |- ?f = "wav" ∨ _ =>
      left; by apply String.eqb_eq
  | H : negb (_ || String.eqb ?f "mp3") = false |- _ ∨ ?f = "mp3" =>
      right; cbn [orb] in H; by apply negb_false_iff, String.eqb_eq in H
  end.

Ltac fmt_mp3 :=
  match goal with
  | H1 : String.eqb ?f "wav" = false,
    H2 : negb (false || String.eqb ?f "mp3") = false |- _ =>
      rewrite (known_format_is_mp3 f H1 H2) in *
  end.

Ltac fmt_wav :=
  match goal with
  | H : String.eqb ?f "wav" = true |- _ =>
      apply String.eqb_eq in H; rewrite H in *
  end.

(** A field of a result that is known. *)
Ltac result_field H :=
  repeat first
    [ rewrite lookup_insert_eq in H
    | rewrite lookup_insert_ne in H by done
    | rewrite lookup_singleton_eq in H
    | rewrite lookup_singleton_ne in H by done ];
  simplify_eq.

(** * The claims *)

(** C1, as amended.  Whenever the handler creates a file, that file is the
    job's reference-audio temporary file (from a URL download or from a
    base64 decode), and when the handler is left, whichever way (with a
    result, with the error of a failed synthesis or of a failed encoding, or
    with an exception), the file is absent from the filesystem unless
    [os.remove] raised on it: then the exception was swallowed and the file
    is still there. *)
Theorem reference_audio_file_removed_unless_remove_raises w g job fs0 path :
  In (EvWrite path) (events (run_handler w g job fs0)) →
  path = prompt_path (job_id_of w job) ∧
  (remove_error w path = None →
   files (run_handler w g job fs0) !! path = None) ∧
  (∀ e, remove_error w path = Some e →
        is_Some (files (run_handler w g job fs0) !! path) ∧
        In (EvRemoveFailed path e) (events (run_handler w g job fs0))).
Proof.
  wp_start. wp_run.
  all: leaf_simpl; intros Hin; in_trace Hin.
  all: split; [reflexivity|].
  all: split; [intros Hok | intros err Herr].
  all: rewrite ?Hok, ?Herr in *; cbn [remove_event remove_fs] in *;
       simplify_eq.
  all: try (by map_simpl).
  all: split; [map_simpl; by eexists | cbn [In]; auto 12].
Qed.

(** The three ways out the claim names, each after the temporary file was
    written, where the operating system removes the files it is asked to:
    success, synthesis failure and encode failure. *)
Lemma reference_audio_file_removed_unless_remove_raises_witness :
  (In (EvWrite "/app/input/j1_prompt.wav")
      (events (run_handler (Sample.world true true true)
                 (Sample.globals false) Sample.job_clone ∅)) ∧
   "/app/input/j1_prompt.wav"
   = prompt_path (job_id_of (Sample.world true true true) Sample.job_clone) ∧
   files (run_handler (Sample.world true true true)
            (Sample.globals false) Sample.job_clone ∅)
     !! "/app/input/j1_prompt.wav" = None) ∧
  (In (EvWrite "/app/input/j1_prompt.wav")
      (events (run_handler (Sample.world true true true)
                 (Sample.globals false) Sample.job_clone_boom ∅)) ∧
   files (run_handler (Sample.world true true true)
            (Sample.globals false) Sample.job_clone_boom ∅)
     !! "/app/input/j1_prompt.wav" = None) ∧
  (In (EvWrite "/app/input/j1_prompt.wav")
      (events (run_handler (Sample.world false true true)
                 (Sample.globals false) Sample.job_clone ∅)) ∧
   files (run_handler (Sample.world false true true)
            (Sample.globals false) Sample.job_clone ∅)
     !! "/app/input/j1_prompt.wav" = None).
Proof.
  split_and!.
  1, 4, 6: in_run.
  - apply (reference_audio_file_removed_unless_remove_raises
             (Sample.world true true true)
             (Sample.globals false) Sample.job_clone ∅); in_run.
  - apply (reference_audio_file_removed_unless_remove_raises
             (Sample.world true true true)
             (Sample.globals false) Sample.job_clone ∅
             "/app/input/j1_prompt.wav"); [in_run | reflexivity].
  - apply (reference_audio_file_removed_unless_remove_raises
             (Sample.world true true true)
             (Sample.globals false) Sample.job_clone_boom ∅
             "/app/input/j1_prompt.wav"); [in_run | reflexivity].
  - apply (reference_audio_file_removed_unless_remove_raises
             (Sample.world false true true)
             (Sample.globals false) Sample.job_clone ∅
             "/app/input/j1_prompt.wav"); [in_run | reflexivity].
Defined.

(** The three runs of the witness end as their names say. *)
Example sample_exit_paths :
  (∃ res, outcome (run_handler (Sample.world true true true)
                     (Sample.globals false) Sample.job_clone ∅) = Returned res ∧
          res !! "audio" = Some (VStr "b64:RIFFpcm")) ∧
  outcome (run_handler (Sample.world true true true)
             (Sample.globals false) Sample.job_clone_boom ∅)
  = Returned (error_response "TTS generation failed: CUDA out of memory") ∧
  outcome (run_handler (Sample.world false true true)
             (Sample.globals false) Sample.job_clone ∅)
  = Returned (error_response
                "Failed to save audio: Couldn't open file for writing").
Proof.
  split_and!.
  - eexists. split; [by vm_compute|]. by vm_compute.
  - by vm_compute.
  - by vm_compute.
Qed.

(** C1, as stated, fails: the removal in the [finally] block is inside
    [try: ... except: pass].  Where [os.remove] raises, the job still
    returns its result and the reference-audio file the handler created is
    left on the filesystem. *)
Lemma reference_audio_file_survives_failed_removal :
  In (EvWrite "/app/input/j1_prompt.wav")
     (events (run_handler Sample.world_no_removal (Sample.globals false)
                Sample.job_clone ∅)) ∧
  "/app/input/j1_prompt.wav"
  = prompt_path (job_id_of Sample.world_no_removal Sample.job_clone) ∧
  (∃ res,
     outcome (run_handler Sample.world_no_removal (Sample.globals false)
                Sample.job_clone ∅) = Returned res ∧
     res !! "audio" = Some (VStr "b64:RIFFpcm") ∧ res !! "error" = None) ∧
  files (run_handler Sample.world_no_removal (Sample.globals false)
           Sample.job_clone ∅) !! "/app/input/j1_prompt.wav" = Some "RIFF" ∧
  files (run_handler Sample.world_no_removal (Sample.globals false)
           Sample.job_clone ∅) !! "/app/input/j1_prompt.wav" ≠ None.
Proof.
  split_and!.
  - in_run.
  - reflexivity.
  - eexists. split_and!; by vm_compute.
  - by vm_compute.
  - by vm_compute.
Qed.

(** C2. The claim wants every failure of a job to come back as a dictionary
    [{error: ...}] and no input to make the handler raise.  The handler does
    that for the failures of the resolver, of the synthesis and of the
    encoding, each in a [try] of its own, but the parameters are read before
    any [try]: with the model loaded, a non-numeric [exaggeration] leaves the
    handler as a [ValueError], a [null] one as a [TypeError], and a text that
    is not a string as an [AttributeError]. *)
Theorem malformed_parameters_escape_the_handler w g model fs0 :
  MODEL g = Some model →
  run_handler w g Sample.job_bad_exaggeration fs0
  = {| outcome := Raised (PyExn "ValueError"
                            "could not convert string to float: 'abc'");
       files := fs0; events := [] |} ∧
  run_handler w g Sample.job_null_exaggeration fs0
  = {| outcome := Raised (PyExn "TypeError"
         "float() argument must be a string or a real number, not 'NoneType'");
       files := fs0; events := [] |} ∧
  run_handler w g Sample.job_numeric_text fs0
  = {| outcome := Raised (PyExn "AttributeError"
                            "'int' object has no attribute 'strip'");
       files := fs0; events := [] |}.
Proof.
  intros Hmodel. unfold run_handler, handler. rewrite Hmodel.
  split_and!; reflexivity.
Qed.


Lemma malformed_parameters_escape_the_handler_witness :
  MODEL (Sample.globals true) = Some Sample.model ∧
  outcome (run_handler (Sample.world true true true) (Sample.globals true)
             Sample.job_bad_exaggeration ∅)
  = Raised (PyExn "ValueError" "could not convert string to float: 'abc'").
Proof.
  split; [reflexivity|].
  by rewrite (proj1 (malformed_parameters_escape_the_handler
                       (Sample.world true true true) (Sample.globals true)
                       Sample.model ∅ eq_refl)).
Defined.

(** C3. Once the parameters of a job are accepted, a reference-audio value
    that, trimmed, begins with [http://] or [https://] is fetched from the
    network and the run never decodes base64; any other value (the empty one
    too) is decoded as base64 and the run never fetches anything. *)
Theorem resolver_dispatches_on_url_prefix w g job fs0 model d p v :
  MODEL g = Some model →
  job_input_of job = VDict d →
  extract_parameters w d = pure p →
  d !! "audio_prompt" = Some (VStr v) →
  (PyStr.startswith_url (PyStr.strip v) = true →
     In (EvHttpGet (PyStr.strip v) (requests_get w (PyStr.strip v)))
        (events (run_handler w g job fs0)) ∧
     ∀ s e, ¬ In (EvB64Decode s e) (events (run_handler w g job fs0))) ∧
  (PyStr.startswith_url (PyStr.strip v) = false →
     In (EvB64Decode (PyStr.strip v) (err_of (b64decode w (PyStr.strip v))))
        (events (run_handler w g job fs0)) ∧
     ∀ u r, ¬ In (EvHttpGet u r) (events (run_handler w g job fs0))).
Proof.
  intros Hmodel Hd Hp Hv.
  destruct (PyStr.startswith_url (PyStr.strip v)) eqn:Hurl;
    (split; intros ?; try done).
  all: wp_start; wp_run; leaf_simpl; split.
  all: try (by intros ? ? Hin; in_trace Hin).
  all: use_outcomes; cbn [In err_of]; auto 10.
Qed.

(** A URL between ASCII spaces, the same URL between a no-break space and
    an ideographic space, and a base64 value. *)
Lemma resolver_dispatches_on_url_prefix_witness :
  (PyStr.startswith_url (PyStr.strip " https://example.com/voice.wav ") = true ∧
   In (EvHttpGet "https://example.com/voice.wav"
         (inr {| raise_for_status := None; content := "RIFFvoice" |}))
      (events (run_handler (Sample.world true true true) (Sample.globals false)
                 Sample.job_url ∅))) ∧
  (PyStr.strip (Sample.nbsp ++ "https://example.com/voice.wav"
                ++ Sample.ideographic_space)
   = "https://example.com/voice.wav" ∧
   In (EvHttpGet "https://example.com/voice.wav"
         (inr {| raise_for_status := None; content := "RIFFvoice" |}))
      (events (run_handler (Sample.world true true true) (Sample.globals false)
                 Sample.job_url_unicode ∅))) ∧
  (PyStr.startswith_url (PyStr.strip "UklGRg==") = false ∧
   In (EvB64Decode "UklGRg==" None)
      (events (run_handler (Sample.world true true true) (Sample.globals false)
                 Sample.job_clone ∅))).
Proof.
  split_and!; try (vm_compute; reflexivity).
  - refine (proj1 (proj1 (resolver_dispatches_on_url_prefix
             (Sample.world true true true) (Sample.globals false)
             Sample.job_url ∅ Sample.model _ Sample.params_hello
             " https://example.com/voice.wav " _ _ _ _) _));
      reflexivity.
  - refine (proj1 (proj1 (resolver_dispatches_on_url_prefix
             (Sample.world true true true) (Sample.globals false)
             Sample.job_url_unicode ∅ Sample.model _ Sample.params_hello
             (Sample.nbsp ++ "https://example.com/voice.wav"
              ++ Sample.ideographic_space) _ _ _ _) _));
      reflexivity.
  - refine (proj1 (proj2 (resolver_dispatches_on_url_prefix
             (Sample.world true true true) (Sample.globals false)
             Sample.job_clone ∅ Sample.model _ Sample.params_hello
             "UklGRg==" _ _ _ _) _));
      reflexivity.
Defined.

(** C4. A job whose [text] is absent, empty or whitespace-only is answered
    with a dictionary whose only key is [error], and nothing else happens:
    the filesystem is the one the job started with (no temporary file) and
    no external call was made (no fetch, no decode, no synthesis). *)
Theorem blank_text_is_rejected_without_effects w g job fs0 d :
  job_input_of job = VDict d →
  text_blank d = true →
  ∃ msg,
    run_handler w g job fs0
    = {| outcome := Returned (error_response msg);
         files := fs0; events := [] |}.
Proof.
  intros Hd Hblank. unfold run_handler, handler.
  destruct (MODEL g) as [model|]; [|by eexists].
  rewrite Hd. exists "Missing required parameter: text".
  assert (py_strip (default (VStr "") (d !! "text")) = pure "") as Hstrip.
  { unfold text_blank in Hblank.
    destruct (d !! "text") as [[]|]; try discriminate; simpl.
    - by rewrite whitespace_only_strip.
    - done. }
  cbn [py_dict]. rewrite bind_pure. unfold extract_parameters.
  by rewrite Hstrip, bind_pure.
Qed.

(** A text of ASCII whitespace, and one of a no-break space, a space and
    an ideographic space. *)
Lemma blank_text_is_rejected_without_effects_witness :
  ((∃ d, job_input_of Sample.job_blank_text = VDict d ∧ text_blank d = true) ∧
   ∃ msg,
     run_handler (Sample.world true true true) (Sample.globals true)
       Sample.job_blank_text ∅
     = {| outcome := Returned (error_response msg); files := ∅; events := [] |}) ∧
  ((∃ d, job_input_of Sample.job_blank_unicode_text = VDict d ∧
         text_blank d = true) ∧
   ∃ msg,
     run_handler (Sample.world true true true) (Sample.globals true)
       Sample.job_blank_unicode_text ∅
     = {| outcome := Returned (error_response msg); files := ∅; events := [] |}).
Proof.
  split; (split; [by eexists|]).
  - eapply (blank_text_is_rejected_without_effects
              (Sample.world true true true) (Sample.globals true)
              Sample.job_blank_text ∅); reflexivity.
  - eapply (blank_text_is_rejected_without_effects
              (Sample.world true true true) (Sample.globals true)
              Sample.job_blank_unicode_text ∅); reflexivity.
Defined.

(** C5. When the handler calls the object store and the upload fails, the
    job does not fail: the handler returns a result that has the embedded
    payload [audio], no [error], and not both [audio_url] and [audio]. *)
Theorem upload_failure_falls_back_to_embedded w g job fs0 bucket key e :
  In (EvPutObject bucket key (Some e)) (events (run_handler w g job fs0)) →
  ∃ res,
    outcome (run_handler w g job fs0) = Returned res ∧
    is_Some (res !! "audio") ∧
    res !! "error" = None ∧
    ¬ (is_Some (res !! "audio_url") ∧ is_Some (res !! "audio")).
Proof.
  wp_start. wp_run.
  all: leaf_simpl; intros Hin; in_trace Hin.
  all: eexists; split; [reflexivity|].
  all: split_and!; [by rewrite lookup_insert_eq | done | by intros [[? ?] _]].
Qed.


Lemma upload_failure_falls_back_to_embedded_witness :
  In (EvPutObject "cdn" "tts/j1.wav"
        (Some (PyExn "EndpointConnectionError"
                 "Could not connect to the endpoint URL")))
     (events (run_handler (Sample.world true true false) (Sample.globals true)
                Sample.job_plain ∅)) ∧
  ∃ res,
    outcome (run_handler (Sample.world true true false) (Sample.globals true)
               Sample.job_plain ∅) = Returned res ∧
    is_Some (res !! "audio") ∧
    res !! "error" = None ∧
    ¬ (is_Some (res !! "audio_url") ∧ is_Some (res !! "audio")).
Proof.
  split; [in_run|].
  eapply (upload_failure_falls_back_to_embedded
            (Sample.world true true false) (Sample.globals true)
            Sample.job_plain ∅). in_run.
Defined.

(** C6, as amended.  The format is compared after lowercasing: when
    [output_format] is a string whose lowercase form is neither [wav] nor
    [mp3], the effective format is [wav]: every file torchaudio is asked to
    write is [{job_id}.wav] in the output directory, the transcoder is not
    run, and the [format] field of a result is [wav]. *)
Theorem unknown_output_format_falls_back_to_wav w g job fs0 d s :
  job_input_of job = VDict d →
  d !! "output_format" = Some (VStr s) →
  PyStr.lower s ≠ "wav" → PyStr.lower s ≠ "mp3" →
  (∀ st, normalize_output_format d st = (Next "wav", st)) ∧
  (∀ path e,
     In (EvSave path e) (events (run_handler w g job fs0)) →
     path = output_path_of (job_id_of w job) "wav") ∧
  (∀ argv e, ¬ In (EvTranscode argv e) (events (run_handler w g job fs0))) ∧
  (∀ res,
     outcome (run_handler w g job fs0) = Returned res →
     is_Some (res !! "format") →
     res !! "format" = Some (VStr "wav")).
Proof.
  intros Hd Hs Hwav Hmp3.
  pose proof (normalize_unknown d s Hs Hwav Hmp3) as Hn.
  split; [intros st; by rewrite Hn|].
  wp_start. wp_run.
  all: leaf_simpl; split_and!.
  all: try (by intros ? ? Hin; in_trace Hin).
  all: intros res Hres Hfmt; simplify_eq.
  all: by destruct Hfmt.
Qed.


Lemma unknown_output_format_falls_back_to_wav_witness :
  (∃ d, job_input_of Sample.job_ogg = VDict d ∧
        d !! "output_format" = Some (VStr "ogg")) ∧
  PyStr.lower "ogg" ≠ "wav" ∧ PyStr.lower "ogg" ≠ "mp3" ∧
  ∀ res,
    outcome (run_handler (Sample.world true true true) (Sample.globals false)
               Sample.job_ogg ∅) = Returned res →
    is_Some (res !! "format") →
    res !! "format" = Some (VStr "wav").
Proof.
  split_and!; [by eexists | done | done |].
  refine (proj2 (proj2 (proj2 (unknown_output_format_falls_back_to_wav
            (Sample.world true true true) (Sample.globals false)
            Sample.job_ogg ∅ _ "ogg" _ _ _ _)))); by vm_compute.
Defined.


(** C6, as stated, fails: [MP3] is not one of [wav] and [mp3], yet the job
    is transcoded to [{job_id}.mp3] and its result says [mp3]. *)
Lemma uppercase_MP3_is_encoded_as_mp3 :
  (∃ d, job_input_of Sample.job_MP3 = VDict d ∧
        d !! "output_format" = Some (VStr "MP3")) ∧
  "MP3" ≠ "wav" ∧ "MP3" ≠ "mp3" ∧
  (∃ res,
     outcome (run_handler (Sample.world true true true) (Sample.globals false)
                Sample.job_MP3 ∅) = Returned res ∧
     res !! "format" = Some (VStr "mp3") ∧
     res !! "format" ≠ Some (VStr "wav")) ∧
  In (EvTranscode (ffmpeg_argv "/app/output/j1_temp.wav" "/app/output/j1.mp3")
        None)
     (events (run_handler (Sample.world true true true) (Sample.globals false)
                Sample.job_MP3 ∅)).
Proof.
  split_and!.
  - by eexists.
  - discriminate.
  - discriminate.
  - eexists. split; [by vm_compute|]. by split.
  - in_run.
Qed.

(** C7. On a machine with a GPU where loading the model fails, the module
    still loads (the failure is caught), and then every job, whatever its
    input, on any filesystem and in any world, is answered with the
    model-not-loaded error before anything else happens: no file changes and
    no external call is made. *)
Theorem model_not_loaded_every_job (b : Boot) (e : pyexn) :
  cuda_is_available b = true →
  from_pretrained b = inl e →
  ∃ g, startup b = inr g ∧
    ∀ w job fs0,
      run_handler w g job fs0
      = {| outcome :=
             Returned (error_response "Model failed to load at startup");
           files := fs0; events := [] |}.
Proof.
  intros Hcuda Hload. unfold startup, check_gpu. rewrite Hcuda, Hload. simpl.
  eexists. split; [reflexivity|]. intros w job fs0. reflexivity.
Qed.


Lemma model_not_loaded_every_job_witness :
  cuda_is_available Sample.boot_no_model = true ∧
  from_pretrained Sample.boot_no_model
  = inl (PyExn "OSError" "Can't load weights") ∧
  ∃ g, startup Sample.boot_no_model = inr g ∧
    ∀ w job fs0,
      run_handler w g job fs0
      = {| outcome :=
             Returned (error_response "Model failed to load at startup");
           files := fs0; events := [] |}.
Proof.
  split_and!; [reflexivity | reflexivity |].
  apply (model_not_loaded_every_job Sample.boot_no_model
           (PyExn "OSError" "Can't load weights")); reflexivity.
Defined.

(** C8. When the reference audio is a URL and its fetch fails ([requests.get]
    raises, which covers unreachable hosts and timeouts, or the response has
    an error status), the handler returns the dictionary whose only key is
    [error], with a message that begins with
    [Failed to download audio prompt: ]; it has no [audio] and no [audio_url]
    key. *)
Theorem failed_fetch_is_download_error w g job fs0 u r :
  In (EvHttpGet u r) (events (run_handler w g job fs0)) →
  fetch_failed r = true →
  ∃ res m,
    outcome (run_handler w g job fs0) = Returned res ∧
    res = {["error" := VStr ("Failed to download audio prompt: " ++ m)]} ∧
    res !! "audio" = None ∧ res !! "audio_url" = None.
Proof.
  wp_start. wp_run.
  all: leaf_simpl; intros Hin Hfail; in_trace Hin.
  all: unfold fetch_failed in Hfail; repeat case_match; simplify_eq.
  all: by eexists _, _.
Qed.


Lemma failed_fetch_is_download_error_witness :
  In (EvHttpGet "https://example.com/gone.wav"
        (inr {| raise_for_status :=
                  Some (PyExn "HTTPError" "404 Client Error: Not Found");
                content := "" |}))
     (events (run_handler (Sample.world true true true) (Sample.globals false)
                Sample.job_url_gone ∅)) ∧
  fetch_failed
    (inr {| raise_for_status :=
              Some (PyExn "HTTPError" "404 Client Error: Not Found");
            content := "" |}) = true ∧
  ∃ res m,
    outcome (run_handler (Sample.world true true true) (Sample.globals false)
               Sample.job_url_gone ∅) = Returned res ∧
    res = {["error" := VStr ("Failed to download audio prompt: " ++ m)]} ∧
    res !! "audio" = None ∧ res !! "audio_url" = None.
Proof.
  split_and!; [in_run | reflexivity |].
  eapply (failed_fetch_is_download_error
            (Sample.world true true true) (Sample.globals false)
            Sample.job_url_gone ∅); [in_run | reflexivity].
Defined.

(** C9. The format is matched without regard to case.  When [output_format]
    is a string that lowercases to [wav] or to [mp3], the effective format is
    that lowercase string, not the fallback, and it is the one the run uses:
    every result that is not an error has it as its [format]; for [wav]
    torchaudio is asked for [{job_id}.wav] and the transcoder is not run; for
    [mp3] torchaudio is asked for the intermediate wav and the transcoder,
    which the handler runs once that file is saved, writes [{job_id}.mp3];
    the store key is [tts/{job_id}.] followed by the lowercase string. *)
Theorem output_format_case_insensitive w g job fs0 d s :
  job_input_of job = VDict d →
  d !! "output_format" = Some (VStr s) →
  PyStr.lower s = "wav" ∨ PyStr.lower s = "mp3" →
  (∀ st, normalize_output_format d st = (Next (PyStr.lower s), st)) ∧
  (∀ res,
     outcome (run_handler w g job fs0) = Returned res →
     (∃ msg, res = error_response msg) ∨
     res !! "format" = Some (VStr (PyStr.lower s))) ∧
  (∀ path e,
     In (EvSave path e) (events (run_handler w g job fs0)) →
     (PyStr.lower s = "wav" ∧ path = output_path_of (job_id_of w job) "wav") ∨
     (PyStr.lower s = "mp3" ∧ path = temp_wav_path (job_id_of w job))) ∧
  (∀ argv e,
     In (EvTranscode argv e) (events (run_handler w g job fs0)) →
     PyStr.lower s = "mp3" ∧
     argv = ffmpeg_argv (temp_wav_path (job_id_of w job))
              (output_path_of (job_id_of w job) "mp3")) ∧
  (PyStr.lower s = "mp3" →
   ∀ path,
     In (EvSave path None) (events (run_handler w g job fs0)) →
     ∃ e, In (EvTranscode
                (ffmpeg_argv (temp_wav_path (job_id_of w job))
                   (output_path_of (job_id_of w job) "mp3")) e)
             (events (run_handler w g job fs0))) ∧
  (∀ bucket key e,
     In (EvPutObject bucket key e) (events (run_handler w g job fs0)) →
     key = "tts/" ++ job_id_of w job ++ "." ++ PyStr.lower s).
Proof.
  intros Hd Hs Hknown.
  pose proof (normalize_known d s Hs Hknown) as Hn.
  split; [intros st; by rewrite Hn|].
  wp_start. wp_run.
  all: leaf_simpl.
  all: try match goal with
         | H : String.eqb _ "wav" = true |- _ =>
             apply String.eqb_eq in H; rewrite H in *
         | H : String.eqb _ "wav" = false |- _ =>
             destruct Hknown as [Hk|Hk]; rewrite Hk in *; [done|]
         end.
  all: split_and!;
    [ intros ? Hres; simplify_eq; first [by left; eexists | by right]
    | intros ? ? Hin; in_trace Hin; auto
    | intros ? ? Hin; in_trace Hin; auto
    | intros Hm ? Hin; in_trace Hin; try done; eexists; cbn [In]; auto 12
    | intros ? ? ? Hin; in_trace Hin; done ].
Qed.


(** [MP3] is transcoded and comes back as [mp3]. *)
Lemma output_format_case_insensitive_witness :
  (∃ d, job_input_of Sample.job_MP3 = VDict d ∧
        d !! "output_format" = Some (VStr "MP3")) ∧
  PyStr.lower "MP3" = "mp3" ∧
  (∃ res,
     outcome (run_handler (Sample.world true true true) (Sample.globals false)
                Sample.job_MP3 ∅) = Returned res ∧
     res !! "audio" = Some (VStr "b64:ID3") ∧
     res !! "format" = Some (VStr (PyStr.lower "MP3"))) ∧
  In (EvSave "/app/output/j1_temp.wav" None)
     (events (run_handler (Sample.world true true true) (Sample.globals false)
                Sample.job_MP3 ∅)) ∧
  ∃ e, In (EvTranscode
             (ffmpeg_argv "/app/output/j1_temp.wav" "/app/output/j1.mp3") e)
          (events (run_handler (Sample.world true true true)
                     (Sample.globals false) Sample.job_MP3 ∅)).
Proof.
  assert (In (EvSave "/app/output/j1_temp.wav" None)
            (events (run_handler (Sample.world true true true)
                       (Sample.globals false) Sample.job_MP3 ∅))) as Hsave
    by in_run.
  destruct (output_format_case_insensitive
              (Sample.world true true true) (Sample.globals false)
              Sample.job_MP3 ∅ (list_to_map [("text", VStr "Hello world");
                                             ("output_format", VStr "MP3")])
              "MP3" eq_refl eq_refl (or_intror eq_refl))
    as (_ & Hres & _ & _ & Hrun & _).
  split_and!; [by eexists | reflexivity | | exact Hsave
               | exact (Hrun eq_refl _ Hsave) ].
  eexists. split; [by vm_compute|]. split; [by vm_compute|].
  destruct (Hres _ ltac:(by vm_compute)) as [[msg Hmsg]|Hfmt];
    [|exact Hfmt].
  by vm_compute in Hmsg.
Defined.

(** C10. When the transcoder fails on the mp3 path, the handler returns the
    save-failure error, the intermediate [{job_id}_temp.wav] is still on the
    filesystem and was not removed; the handler removes that file only in
    runs where the transcoder succeeded. *)
Theorem failed_transcode_leaves_intermediate_file w g job fs0 :
  (∀ argv e,
     In (EvTranscode argv (Some e)) (events (run_handler w g job fs0)) →
     (∃ m, outcome (run_handler w g job fs0)
           = Returned (error_response ("Failed to save audio: " ++ m))) ∧
     is_Some (files (run_handler w g job fs0)
                !! temp_wav_path (job_id_of w job)) ∧
     ¬ In (EvRemove (temp_wav_path (job_id_of w job)))
          (events (run_handler w g job fs0))) ∧
  (In (EvRemove (temp_wav_path (job_id_of w job)))
      (events (run_handler w g job fs0)) →
   ∃ argv, In (EvTranscode argv None) (events (run_handler w g job fs0))).
Proof.
  wp_start. wp_run.
  all: leaf_simpl; split.
  all: try (by intros Hin; in_trace Hin; try (by path_ne_false);
            eexists; cbn [In]; auto 12).
  all: intros ? ? Hin; in_trace Hin.
  all: split_and!; [by eexists | map_simpl; by eexists | ].
  all: intros Hin; in_trace Hin; path_ne_false.
Qed.


Lemma failed_transcode_leaves_intermediate_file_witness :
  In (EvTranscode (ffmpeg_argv "/app/output/j1_temp.wav" "/app/output/j1.mp3")
        (Some (PyExn "CalledProcessError"
                 "Command returned non-zero exit status 1.")))
     (events (run_handler (Sample.world true false true) (Sample.globals false)
                Sample.job_clone_mp3 ∅)) ∧
  (∃ m, outcome (run_handler (Sample.world true false true)
                   (Sample.globals false) Sample.job_clone_mp3 ∅)
        = Returned (error_response ("Failed to save audio: " ++ m))) ∧
  is_Some (files (run_handler (Sample.world true false true)
                    (Sample.globals false) Sample.job_clone_mp3 ∅)
             !! temp_wav_path
                  (job_id_of (Sample.world true false true)
                     Sample.job_clone_mp3)).
Proof.
  split; [in_run|].
  destruct (proj1 (failed_transcode_leaves_intermediate_file
                     (Sample.world true false true) (Sample.globals false)
                     Sample.job_clone_mp3 ∅)
              (ffmpeg_argv "/app/output/j1_temp.wav" "/app/output/j1.mp3")
              (PyExn "CalledProcessError"
                 "Command returned non-zero exit status 1."))
    as (Herr & Hfile & _); [in_run|].
  by split.
Defined.

(** * Further properties of the code *)

(** ** Module-level code *)

(** X2. After a start, the store client exists exactly when the endpoint
    and the two credentials are set to non-empty values and building the
    client did not raise; the model is there exactly when it loaded, and the
    sample rate is the model's, or 24000 without a model. *)
Theorem remote_store_needs_all_credentials (b : Boot) (g : Globals) :
  startup b = inr g →
  (r2_client g = true ↔
     getenv_truthy b "R2_ENDPOINT" = true ∧
     getenv_truthy b "R2_ACCESS_KEY_ID" = true ∧
     getenv_truthy b "R2_SECRET_ACCESS_KEY" = true ∧
     boto3_client b = None) ∧
  match from_pretrained b with
  | inr m => MODEL g = Some m ∧ SAMPLE_RATE g = sr m
  | inl _ => MODEL g = None ∧ SAMPLE_RATE g = 24000
  end.
Proof.
  unfold startup, check_gpu, init_r2_client.
  destruct (cuda_is_available b); simpl; [|done].
  destruct (from_pretrained b); intros [= <-]; simpl.
  all: split; [|done].
  all: destruct (getenv_truthy b "R2_ENDPOINT"),
         (getenv_truthy b "R2_ACCESS_KEY_ID"),
         (getenv_truthy b "R2_SECRET_ACCESS_KEY"), (boto3_client b); simpl;
       split; try done; by intros (? & ? & ? & ?).
Qed.


Lemma remote_store_needs_all_credentials_witness :
  startup SampleBoot.with_store = inr SampleBoot.globals_with_store ∧
  r2_client SampleBoot.globals_with_store = true ∧
  SAMPLE_RATE SampleBoot.globals_with_store = 24000.
Proof.
  split; [reflexivity|].
  destruct (remote_store_needs_all_credentials SampleBoot.with_store
              SampleBoot.globals_with_store eq_refl) as [Hstore Hmodel].
  split; [by apply Hstore | apply Hmodel].
Defined.

(** ** [upload_to_r2], [download_audio], the parameters and the [finally] block *)

(** X3. [upload_to_r2] never raises and never changes a file.  It returns a
    URL exactly when the store is configured, the file is there and
    [put_object] did not raise, and the URL is then
    [{CDN_URL}/tts/{job_id}.{file_ext}]; the content type sent is
    [audio/wav] for [wav] and [audio/mpeg] for anything else. *)
Theorem upload_to_r2_never_raises w g file_path job_id file_ext st :
  ∃ r st',
    upload_to_r2 w g file_path job_id file_ext st = (Next r, st') ∧
    fs st' = fs st ∧
    ∀ url,
      r = Some url ↔
      url = CDN_URL g ++ "/tts/" ++ job_id ++ "." ++ file_ext ∧
      r2_client g = true ∧
      ∃ body,
        fs st !! file_path = Some body ∧
        put_object w (R2_BUCKET g) ("tts/" ++ job_id ++ "." ++ file_ext) body
          (if String.eqb file_ext "wav" then "audio/wav" else "audio/mpeg")
        = None.
Proof.
  unfold upload_to_r2.
  destruct (r2_client g); simpl.
  2: { eexists _, _. split_and!; try done. intros url. split; [done|].
       by intros (_ & ? & _). }
  unfold try_except, bind, read_file, call_put_object, log, pure, raise.
  destruct (fs st !! file_path) as [body|] eqn:Hfile; simpl.
  2: { eexists _, _. split_and!; try done. intros url. split; [done|].
       by intros (_ & _ & ? & ? & _). }
  destruct (put_object w _ _ body _) eqn:Hput; simpl.
  all: eexists _, _; split_and!; try done.
  all: intros url; split.
  - done.
  - intros (_ & _ & body' & [= <-] & Hnone). congruence.
  - intros [= <-]. split_and!; try done. by exists body.
  - by intros (-> & _).
Qed.

(** X4. [download_audio] returns [save_path] only after a fetch that
    succeeded with a success status, and the file then holds exactly the
    response body.  When it raises, either no file changed, or [open]
    went through and [f.write] raised: then the file at [save_path] holds
    what was written before the failure, and no other file changed.  A
    value without the http(s) prefix raises [ValueError("Invalid URL")]
    without any network call. *)
Theorem download_audio_outcomes w url save_path st fl st' :
  download_audio w url save_path st = (fl, st') →
  (fl = Next save_path ∧ PyStr.startswith_url url = true ∧
   ∃ response,
     requests_get w url = inr response ∧
     raise_for_status response = None ∧
     file_write w save_path (content response) = Written ∧
     fs st' = <[save_path := content response]> (fs st)) ∨
  (∃ e, fl = Raise e ∧
        (fs st' = fs st ∨
         ∃ response partial,
           requests_get w url = inr response ∧
           raise_for_status response = None ∧
           file_write w save_path (content response) = Truncated partial e ∧
           fs st' = <[save_path := partial]> (fs st)) ∧
        (PyStr.startswith_url url = false →
         e = PyExn "ValueError" "Invalid URL" ∧ st' = st)).
Proof.
  unfold download_audio.
  destruct (PyStr.startswith_url url); simpl.
  2: { intros [= <- <-]. right. eexists. split_and!; [done|by left|done]. }
  unfold call_requests_get, call_raise_for_status, write_file, put_file,
    bind, log, lift, pure, raise.
  destruct (requests_get w url) as [e|response]; simpl.
  { intros [= <- <-]. right. eexists. split_and!; [done|by left|done]. }
  destruct (raise_for_status response) eqn:Hstatus; simpl.
  { intros [= <- <-]. right. eexists. split_and!; [done|by left|done]. }
  destruct (file_write w save_path (content response)) as [|e|partial e]
    eqn:Hwrite; simpl; intros [= <- <-].
  - left. split_and!; try done. by exists response.
  - right. eexists. split_and!; [done|by left|done].
  - right. eexists. split_and!; [done| |done].
    right. by exists response, partial.
Qed.

(** A value that is no URL, and a download onto a full disk. *)
Lemma download_audio_outcomes_witness :
  (download_audio (Sample.world true true true) "ftp://example.com/v.wav"
     "/app/input/j1_prompt.wav" (initial ∅)
   = (Raise (PyExn "ValueError" "Invalid URL"), initial ∅) ∧
   ∃ e, @Raise string e = Raise (PyExn "ValueError" "Invalid URL")) ∧
  ∃ st' e,
    download_audio Sample.world_disk_full "https://example.com/voice.wav"
      "/app/input/j1_prompt.wav" (initial ∅) = (Raise e, st') ∧
    fs st' = <["/app/input/j1_prompt.wav" := ""]> (fs (initial ∅)).
Proof.
  split.
  - split; [reflexivity|].
    destruct (download_audio_outcomes (Sample.world true true true)
                "ftp://example.com/v.wav" "/app/input/j1_prompt.wav"
                (initial ∅) (Raise (PyExn "ValueError" "Invalid URL"))
                (initial ∅) eq_refl)
      as [(Hnext & _) | (e & He & _)]; [discriminate Hnext|].
    by exists e.
  - eexists _, _. split; [reflexivity|].
    destruct (download_audio_outcomes Sample.world_disk_full
                "https://example.com/voice.wav" "/app/input/j1_prompt.wav"
                (initial ∅) _ _ eq_refl)
      as [(Hnext & _) | (e & He & [Hsame | (r & partial & Hr & _ & Hw & Hfs)] & _)].
    + discriminate Hnext.
    + exfalso. apply (f_equal (λ m, m !! "/app/input/j1_prompt.wav")) in Hsame.
      vm_compute in Hsame. discriminate Hsame.
    + vm_compute in Hw. injection Hw as <- _. exact Hfs.
Defined.

(** X5. Reading the parameters has no effect on files or trace, whatever
    comes of it.  Parameters that are accepted have a non-empty text, which
    is the trimmed [text] string of the input, the two numbers [float]
    makes of [exaggeration] and [cfg_weight] (0.5 where the field is
    absent), an output format that is [wav] or [mp3], and [return_base64] as
    it was given ([False] when absent). *)
Theorem accepted_parameters_are_normalized w d st fl st' :
  extract_parameters w d st = (fl, st') →
  st' = st ∧
  ∀ p, fl = Next p →
    text p ≠ "" ∧
    (∃ s, d !! "text" = Some (VStr s) ∧ text p = PyStr.strip s) ∧
    PyFloat.py_float w (default (VFloat half) (d !! "exaggeration"))
    = inr (exaggeration p) ∧
    PyFloat.py_float w (default (VFloat half) (d !! "cfg_weight"))
    = inr (cfg_weight p) ∧
    (output_format p = "wav" ∨ output_format p = "mp3") ∧
    return_base64 p = default (VBool false) (d !! "return_base64").
Proof.
  unfold extract_parameters, normalize_output_format, py_strip, py_lower,
    bind, lift, pure, raise, return_.
  destruct (d !! "text") as [[]|] eqn:Htext; simpl;
    try (by intros [= <- <-]).
  destruct (PyStr.truthy (PyStr.strip s)) eqn:Hs; simpl;
    [|by intros [= <- <-]].
  destruct (PyFloat.py_float w (default (VFloat half) (d !! "exaggeration")))
    as [?|ex]; simpl; [by intros [= <- <-]|].
  destruct (PyFloat.py_float w (default (VFloat half) (d !! "cfg_weight")))
    as [?|cfg]; simpl; [by intros [= <- <-]|].
  destruct (default (VStr "wav") (d !! "output_format")); simpl;
    try (by intros [= <- <-]).
  destruct (negb _) eqn:Hfmt; simpl; intros [= <- <-].
  all: split; [done|]; intros q [= <-]; simpl; split_and!; eauto.
  all: try (intros Hempty; by rewrite Hempty in Hs).
  by apply known_format_cases.
Qed.

Lemma accepted_parameters_are_normalized_witness :
  extract_parameters (Sample.world true true true) SampleBoot.text_only
    (initial ∅)
  = (Next Sample.params_hello, initial ∅) ∧
  text Sample.params_hello ≠ "" ∧
  (output_format Sample.params_hello = "wav" ∨
   output_format Sample.params_hello = "mp3").
Proof.
  split; [reflexivity|].
  destruct (accepted_parameters_are_normalized (Sample.world true true true)
              SampleBoot.text_only
              (initial ∅) (Next Sample.params_hello) (initial ∅) eq_refl)
    as [_ H].
  destruct (H Sample.params_hello eq_refl) as (Htext & _ & _ & _ & Hfmt & _).
  by split.
Defined.

(** X7. The [finally] block never raises and never returns.  It asks for
    the removal of the recorded temporary file when one is recorded and
    there: where [os.remove] does not raise the file is absent afterwards,
    where it raises the exception is swallowed and the filesystem is as it
    was; every other file is as it was in both cases. *)
Theorem cleanup_is_best_effort w st :
  ∃ st',
    cleanup w st = (Next tt, st') ∧
    (∀ p, temp_audio_file st = Some p → p ≠ "" →
          remove_error w p = None → fs st' !! p = None) ∧
    (∀ p, temp_audio_file st = Some p → is_Some (remove_error w p) →
          fs st' = fs st) ∧
    (∀ q, temp_audio_file st ≠ Some q → fs st' !! q = fs st !! q).
Proof.
  cut (wp (cleanup w) st (λ fl st',
         fl = Next tt ∧
         (∀ p, temp_audio_file st = Some p → p ≠ "" →
               remove_error w p = None → fs st' !! p = None) ∧
         (∀ p, temp_audio_file st = Some p → is_Some (remove_error w p) →
               fs st' = fs st) ∧
         (∀ q, temp_audio_file st ≠ Some q → fs st' !! q = fs st !! q))).
  { unfold wp. destruct (cleanup w st) as [fl st']. simpl.
    intros (-> & ? & ? & ?). by exists st'. }
  wp_run.
  all: split_and!; try done.
  all: try (intros p [= <-] Hne Hok;
            first [ by rewrite Hok; apply files_remove_done
                  | by destruct s
                  | done ]).
  all: try (intros p [= <-] [e He]; by rewrite He).
  all: intros q Hq; apply files_remove_ne; congruence.
Qed.

(** ** The paths of a job *)

(** X8. For every job id, also an absolute one, the reference-audio file,
    the intermediate wav and the output file are three different paths. *)
Theorem job_paths_are_distinct (job_id : string) :
  prompt_path job_id ≠ temp_wav_path job_id ∧
  (∀ fmt, prompt_path job_id ≠ output_path_of job_id fmt) ∧
  (∀ fmt, temp_wav_path job_id ≠ output_path_of job_id fmt).
Proof.
  split_and!; [apply prompt_ne_temp_wav | apply prompt_ne_output
               | apply temp_wav_ne_output].
Qed.

(** ** Runs of the handler *)

(** X6. A job that gives a text with something else than whitespace in it
    and none of the optional parameters runs with the defaults: the model
    is called on the trimmed text with exaggeration 0.5 and guidance weight
    0.5 (without a reference audio, on the files the job started with, when
    there is no [audio_prompt] either); the format is [wav], so torchaudio
    writes [{job_id}.wav] and the transcoder is not run; and embedding is
    not forced, so with a store client the saved file is sent to the
    store. *)
Theorem omitted_parameters_take_defaults w g model job fs0 d s :
  MODEL g = Some model →
  job_input_of job = VDict d →
  d !! "text" = Some (VStr s) →
  PyStr.whitespace_only s = false →
  d !! "exaggeration" = None → d !! "cfg_weight" = None →
  d !! "output_format" = None → d !! "return_base64" = None →
  extract_parameters w d
  = pure {| text := PyStr.strip s; exaggeration := FDec false 5 (-1);
            cfg_weight := FDec false 5 (-1); output_format := "wav";
            return_base64 := VBool false |} ∧
  (∀ t prompt e,
     In (EvGenerate t prompt e) (events (run_handler w g job fs0)) →
     t = PyStr.strip s ∧
     ∃ files,
       e = err_of (generate model files (PyStr.strip s) prompt
                     (FDec false 5 (-1)) (FDec false 5 (-1))) ∧
       (d !! "audio_prompt" = None → files = fs0 ∧ prompt = None)) ∧
  (d !! "audio_prompt" = None →
   In (EvGenerate (PyStr.strip s) None
         (err_of (generate model fs0 (PyStr.strip s) None
                    (FDec false 5 (-1)) (FDec false 5 (-1)))))
      (events (run_handler w g job fs0))) ∧
  (∀ path e,
     In (EvSave path e) (events (run_handler w g job fs0)) →
     path = output_path_of (job_id_of w job) "wav") ∧
  (∀ argv e, ¬ In (EvTranscode argv e) (events (run_handler w g job fs0))) ∧
  (∀ res,
     outcome (run_handler w g job fs0) = Returned res →
     (∃ msg, res = error_response msg) ∨
     res !! "format" = Some (VStr "wav")) ∧
  (r2_client g = true →
   ∀ path,
     In (EvSave path None) (events (run_handler w g job fs0)) →
     ∃ e, In (EvPutObject (R2_BUCKET g) ("tts/" ++ job_id_of w job ++ ".wav") e)
             (events (run_handler w g job fs0))).
Proof.
  intros Hmodel Hd Ht Hs He Hc Hf Hr.
  assert (extract_parameters w d
          = pure {| text := PyStr.strip s; exaggeration := FDec false 5 (-1);
                    cfg_weight := FDec false 5 (-1); output_format := "wav";
                    return_base64 := VBool false |}) as Hp.
  { unfold extract_parameters, normalize_output_format.
    rewrite Ht, He, Hc, Hf, Hr. cbn [from_option id py_strip py_lower].
    rewrite bind_pure, strip_truthy, Hs. reflexivity. }
  split; [exact Hp|].
  wp_start. wp_run.
  all: leaf_simpl.
  all: split_and!;
    [ intros ? ? ? Hin; in_trace Hin; (split; [done|]);
      match goal with
      | H : generate _ ?f _ _ _ _ = _ |- _ => exists f; rewrite H
      end;
      (split; [reflexivity|]); intros ?; first [done | congruence]
    | first [ by intros [=] | intros _; use_outcomes; cbn [In]; auto 12 ]
    | intros ? ? Hin; by in_trace Hin
    | intros ? ? Hin; by in_trace Hin
    | intros ? Hres; simplify_eq; first [by left; eexists | by right]
    | first [ by intros [=]
            | intros Hr2 ? Hin; in_trace Hin;
              first [ by destruct (r2_client g)
                    | eexists; cbn [In]; auto 12 ] ] ].
Qed.

Lemma omitted_parameters_take_defaults_witness :
  MODEL SampleBoot.globals_with_store = Some Sample.model ∧
  (∃ d, job_input_of Sample.job_plain = VDict d ∧
        d !! "text" = Some (VStr "Hello world") ∧
        d !! "exaggeration" = None ∧ d !! "output_format" = None) ∧
  PyStr.whitespace_only "Hello world" = false ∧
  In (EvGenerate "Hello world" None None)
     (events (run_handler (Sample.world true true true)
                SampleBoot.globals_with_store Sample.job_plain ∅)) ∧
  In (EvSave "/app/output/j1.wav" None)
     (events (run_handler (Sample.world true true true)
                SampleBoot.globals_with_store Sample.job_plain ∅)) ∧
  ∃ e, In (EvPutObject "cdn" "tts/j1.wav" e)
          (events (run_handler (Sample.world true true true)
                     SampleBoot.globals_with_store Sample.job_plain ∅)).
Proof.
  assert (In (EvSave "/app/output/j1.wav" None)
            (events (run_handler (Sample.world true true true)
                       SampleBoot.globals_with_store Sample.job_plain ∅)))
    as Hsave by in_run.
  destruct (omitted_parameters_take_defaults
              (Sample.world true true true) SampleBoot.globals_with_store
              Sample.model Sample.job_plain ∅
              (list_to_map [("text", VStr "Hello world")]) "Hello world"
              eq_refl eq_refl eq_refl eq_refl eq_refl eq_refl eq_refl eq_refl)
    as (_ & _ & Hgen & _ & _ & _ & Hput).
  split_and!; [reflexivity | by eexists | reflexivity
               | exact (Hgen eq_refl) | exact Hsave
               | exact (Hput eq_refl _ Hsave) ].
Defined.

(** X10. Whatever the handler returns is either an error dictionary with
    the single key [error], or a result with [duration], the process-wide
    [sample_rate], a [format] that is [wav] or [mp3], and exactly one of
    [audio] and [audio_url]. *)
Theorem result_is_error_or_one_delivery w g job fs0 res :
  outcome (run_handler w g job fs0) = Returned res →
  (∃ msg, res = {["error" := VStr msg]}) ∨
  (∃ duration format key payload,
     (format = "wav" ∨ format = "mp3") ∧
     (key = "audio" ∨ key = "audio_url") ∧
     res = <[key := VStr payload]>
             (<["format" := VStr format]>
                (<["sample_rate" := VInt (SAMPLE_RATE g)]>
                   {["duration" := VFloat duration]}))).
Proof.
  wp_start. wp_run.
  all: leaf_simpl; intros Hres; simplify_eq.
  all: try (by left; eexists).
  all: right; eexists _, _, _, _.
  all: (split; [|split; [|reflexivity]]); auto.
  all: fmt_solve.
Qed.


Lemma result_is_error_or_one_delivery_witness :
  ∃ res,
    outcome (run_handler (Sample.world true true true) (Sample.globals false)
               Sample.job_plain ∅) = Returned res ∧
    ((∃ msg, res = {["error" := VStr msg]}) ∨
     (∃ duration format key payload,
        (format = "wav" ∨ format = "mp3") ∧
        (key = "audio" ∨ key = "audio_url") ∧
        res = <[key := VStr payload]>
                (<["format" := VStr format]>
                   (<["sample_rate" := VInt (SAMPLE_RATE (Sample.globals false))]>
                      {["duration" := VFloat duration]})))).
Proof.
  eexists. split; [by vm_compute|].
  apply (result_is_error_or_one_delivery (Sample.world true true true)
           (Sample.globals false) Sample.job_plain ∅). by vm_compute.
Defined.

(** X11. Nothing is retried: in one run each of [requests.get],
    [b64decode], [MODEL.generate], [ta.save], ffmpeg and [put_object] is
    called at most once, and a run never both fetches and decodes. *)
Theorem no_external_call_is_repeated w g job fs0 :
  (count_calls is_http_get (events (run_handler w g job fs0)) ≤ 1)%nat ∧
  (count_calls is_b64decode (events (run_handler w g job fs0)) ≤ 1)%nat ∧
  (count_calls is_generate (events (run_handler w g job fs0)) ≤ 1)%nat ∧
  (count_calls is_save (events (run_handler w g job fs0)) ≤ 1)%nat ∧
  (count_calls is_transcode (events (run_handler w g job fs0)) ≤ 1)%nat ∧
  (count_calls is_put_object (events (run_handler w g job fs0)) ≤ 1)%nat ∧
  (count_calls is_http_get (events (run_handler w g job fs0))
   + count_calls is_b64decode (events (run_handler w g job fs0)) ≤ 1)%nat.
Proof.
  wp_start. wp_run.
  all: leaf_simpl; count_simpl; cbn [Nat.add]; split_and!; lia.
Qed.

(** X12. The first failing stage ends the job with that stage's message and
    the text of the exception.  A failed base64 decode leaves the filesystem
    as it was and is the only call of the run; after a failed synthesis
    nothing is encoded or uploaded; after a failed [ta.save] nothing is
    transcoded or uploaded. *)
Theorem stage_failure_ends_the_job w g job fs0 :
  (∀ s e,
     In (EvB64Decode s (Some e)) (events (run_handler w g job fs0)) →
     outcome (run_handler w g job fs0)
     = Returned (error_response ("Invalid base64 audio_prompt: " ++ exn_msg e)) ∧
     events (run_handler w g job fs0) = [EvB64Decode s (Some e)] ∧
     files (run_handler w g job fs0) = fs0) ∧
  (∀ t prompt e,
     In (EvGenerate t prompt (Some e)) (events (run_handler w g job fs0)) →
     outcome (run_handler w g job fs0)
     = Returned (error_response ("TTS generation failed: " ++ exn_msg e)) ∧
     count_calls is_save (events (run_handler w g job fs0)) = 0%nat ∧
     count_calls is_put_object (events (run_handler w g job fs0)) = 0%nat) ∧
  (∀ path e,
     In (EvSave path (Some e)) (events (run_handler w g job fs0)) →
     outcome (run_handler w g job fs0)
     = Returned (error_response ("Failed to save audio: " ++ exn_msg e)) ∧
     count_calls is_transcode (events (run_handler w g job fs0)) = 0%nat ∧
     count_calls is_put_object (events (run_handler w g job fs0)) = 0%nat).
Proof.
  wp_start. wp_run.
  all: leaf_simpl.
  all: split_and!; [ intros ? ? Hin | intros ? ? ? Hin | intros ? ? Hin ];
    in_trace Hin; split_and!; first [done | by count_simpl].
Qed.


Lemma stage_failure_ends_the_job_witness :
  In (EvGenerate "boom" (Some "/app/input/j1_prompt.wav")
        (Some (PyExn "RuntimeError" "CUDA out of memory")))
     (events (run_handler (Sample.world true true true) (Sample.globals true)
                Sample.job_clone_boom ∅)) ∧
  outcome (run_handler (Sample.world true true true) (Sample.globals true)
             Sample.job_clone_boom ∅)
  = Returned (error_response "TTS generation failed: CUDA out of memory").
Proof.
  split; [in_run|].
  apply (proj1 (proj2 (stage_failure_ends_the_job
           (Sample.world true true true) (Sample.globals true)
           Sample.job_clone_boom ∅))
           "boom" (Some "/app/input/j1_prompt.wav")
           (PyExn "RuntimeError" "CUDA out of memory")).
  in_run.
Defined.

(** X13. Without a store client, or when [return_base64] is truthy, the
    store is never called and a result never has an [audio_url]. *)
Theorem embedded_delivery_when_no_store_or_forced w g job fs0 :
  (r2_client g = false ∨
   ∃ d, job_input_of job = VDict d ∧
        py_truthy (default (VBool false) (d !! "return_base64")) = true) →
  count_calls is_put_object (events (run_handler w g job fs0)) = 0%nat ∧
  ∀ res, outcome (run_handler w g job fs0) = Returned res →
         res !! "audio_url" = None.
Proof.
  intros [Hr2 | (d & Hd & Hforce)].
  all: wp_start; wp_run; leaf_simpl.
  all: try (by destruct (r2_client g)).
  all: split; [by count_simpl|]; intros res Hres; by simplify_eq.
Qed.


Lemma embedded_delivery_when_no_store_or_forced_witness :
  r2_client (Sample.globals false) = false ∧
  count_calls is_put_object
    (events (run_handler (Sample.world true true true) (Sample.globals false)
               Sample.job_plain ∅)) = 0%nat.
Proof.
  split; [reflexivity|].
  apply (embedded_delivery_when_no_store_or_forced
           (Sample.world true true true) (Sample.globals false)
           Sample.job_plain ∅).
  left. reflexivity.
Defined.

(** X14. A [put_object] that succeeds was made with the configured bucket
    and the key [tts/{job_id}.wav] or [tts/{job_id}.mp3], and the handler
    then returns a result whose [audio_url] is [{CDN_URL}/{key}], without
    [audio] and without [error]. *)
Theorem upload_success_returns_url w g job fs0 bucket key :
  In (EvPutObject bucket key None) (events (run_handler w g job fs0)) →
  r2_client g = true ∧ bucket = R2_BUCKET g ∧
  (key = "tts/" ++ job_id_of w job ++ ".wav" ∨
   key = "tts/" ++ job_id_of w job ++ ".mp3") ∧
  ∃ res,
    outcome (run_handler w g job fs0) = Returned res ∧
    res !! "audio_url" = Some (VStr (CDN_URL g ++ "/" ++ key)) ∧
    res !! "audio" = None ∧ res !! "error" = None.
Proof.
  wp_start. wp_run.
  all: leaf_simpl; intros Hin; in_trace Hin.
  all: split_and!; [ by destruct (r2_client g) | done | | by eexists ].
  all: try fmt_wav; try fmt_mp3; auto.
Qed.


Lemma upload_success_returns_url_witness :
  In (EvPutObject "cdn" "tts/j1.wav" None)
     (events (run_handler (Sample.world true true true) (Sample.globals true)
                Sample.job_plain ∅)) ∧
  ∃ res,
    outcome (run_handler (Sample.world true true true) (Sample.globals true)
               Sample.job_plain ∅) = Returned res ∧
    res !! "audio_url"
    = Some (VStr (CDN_URL (Sample.globals true) ++ "/" ++ "tts/j1.wav")) ∧
    res !! "audio" = None ∧ res !! "error" = None.
Proof.
  split; [in_run|].
  apply (upload_success_returns_url (Sample.world true true true)
           (Sample.globals true) Sample.job_plain ∅ "cdn" "tts/j1.wav").
  in_run.
Defined.

(** X15. With the model loaded and a dict as input, the handler answers
    with the missing-text error exactly when [text] is absent, empty or
    whitespace only. *)
Theorem text_is_rejected_exactly_when_blank w g model job fs0 d :
  MODEL g = Some model →
  job_input_of job = VDict d →
  (outcome (run_handler w g job fs0)
   = Returned (error_response "Missing required parameter: text")
   ↔ text_blank d = true).
Proof.
  intros Hmodel Hd. wp_start. wp_run.
  all: leaf_simpl.
  all: try (erewrite text_blank_strip by eassumption).
  all: try (erewrite text_blank_not_str by (eassumption || done)).
  all: try (rewrite Heqb; by split).
  all: rewrite ?Heqb; cbn [negb]; (split; [|done]).
  all: done.
Qed.


Lemma text_is_rejected_exactly_when_blank_witness :
  MODEL (Sample.globals true) = Some Sample.model ∧
  (∃ d, job_input_of Sample.job_blank_text = VDict d ∧ text_blank d = true) ∧
  outcome (run_handler (Sample.world true true true) (Sample.globals true)
             Sample.job_blank_text ∅)
  = Returned (error_response "Missing required parameter: text").
Proof.
  split_and!; [reflexivity | by eexists |].
  eapply (text_is_rejected_exactly_when_blank (Sample.world true true true)
            (Sample.globals true) Sample.model Sample.job_blank_text ∅);
    reflexivity.
Defined.

(** X16. A job that returns a result has asked for the removal of its
    output file, the one named after the result's [format]: where
    [os.remove] does not raise on it the file is gone, where it raises the
    file is still there and the job succeeds all the same.  For [mp3] the
    intermediate wav is gone in every case: its removal is not guarded, a
    failure of it ends the job with the save error. *)
Theorem output_file_removed_unless_remove_raises w g job fs0 res fmt :
  outcome (run_handler w g job fs0) = Returned res →
  res !! "format" = Some (VStr fmt) →
  (remove_error w (output_path_of (job_id_of w job) fmt) = None →
   files (run_handler w g job fs0)
     !! output_path_of (job_id_of w job) fmt = None) ∧
  (∀ e, remove_error w (output_path_of (job_id_of w job) fmt) = Some e →
        is_Some (files (run_handler w g job fs0)
                   !! output_path_of (job_id_of w job) fmt) ∧
        In (EvRemoveFailed (output_path_of (job_id_of w job) fmt) e)
           (events (run_handler w g job fs0))) ∧
  (fmt = "mp3" →
   remove_error w (temp_wav_path (job_id_of w job)) = None ∧
   files (run_handler w g job fs0) !! temp_wav_path (job_id_of w job) = None).
Proof.
  wp_start. wp_run.
  all: leaf_simpl; intros Hres Hfmt; simplify_eq.
  all: try (by unfold error_response in Hfmt; result_field Hfmt).
  all: result_field Hfmt.
  all: split_and!;
    [ intros Hok; rewrite Hok; by map_simpl
    | intros err Herr; rewrite Herr; cbn [remove_fs remove_event];
      split; [map_simpl; by eexists | cbn [In]; auto 12]
    | first [ by intros _; split; [done | map_simpl]
            | intros Hmp3; fmt_wav; discriminate
            | discriminate ] ].
Qed.

Lemma output_file_removed_unless_remove_raises_witness :
  (∃ res,
     outcome (run_handler (Sample.world true true true) (Sample.globals false)
                Sample.job_clone_mp3 ∅) = Returned res ∧
     res !! "format" = Some (VStr "mp3") ∧
     files (run_handler (Sample.world true true true) (Sample.globals false)
              Sample.job_clone_mp3 ∅)
       !! output_path_of (job_id_of (Sample.world true true true)
                            Sample.job_clone_mp3) "mp3" = None) ∧
  (∃ res,
     outcome (run_handler Sample.world_no_removal (Sample.globals false)
                Sample.job_plain ∅) = Returned res ∧
     res !! "format" = Some (VStr "wav") ∧
     is_Some (files (run_handler Sample.world_no_removal (Sample.globals false)
                       Sample.job_plain ∅)
                !! output_path_of (job_id_of Sample.world_no_removal
                                     Sample.job_plain) "wav")).
Proof.
  split.
  - eexists. split; [by vm_compute|]. split; [by vm_compute|].
    eapply (output_file_removed_unless_remove_raises
              (Sample.world true true true)
              (Sample.globals false) Sample.job_clone_mp3 ∅); by vm_compute.
  - eexists. split; [by vm_compute|]. split; [by vm_compute|].
    refine (proj1 (proj1 (proj2 (output_file_removed_unless_remove_raises
              Sample.world_no_removal (Sample.globals false)
              Sample.job_plain ∅ _ "wav" _ _))
              (Sample.PermissionError "/app/output/j1.wav") _));
      by vm_compute.
Defined.

(** X17. A run touches nothing but the job's own three names: every path
    other than the reference-audio file, the intermediate wav and the two
    possible output files holds at the end what it held at the start. *)
Theorem other_files_are_untouched w g job fs0 path :
  path ≠ prompt_path (job_id_of w job) →
  path ≠ temp_wav_path (job_id_of w job) →
  path ≠ output_path_of (job_id_of w job) "wav" →
  path ≠ output_path_of (job_id_of w job) "mp3" →
  files (run_handler w g job fs0) !! path = fs0 !! path.
Proof.
  intros Hprompt Htemp Hwav Hmp3. wp_start. wp_run.
  all: leaf_simpl.
  all: try fmt_wav; try fmt_mp3.
  all: by rewrite ?files_remove_ne, ?lookup_delete_ne, ?lookup_insert_ne
         by done.
Qed.


Lemma other_files_are_untouched_witness :
  "/app/output/j0.wav" ≠ prompt_path (job_id_of (Sample.world true true true) Sample.job_clone_mp3) ∧
  files (run_handler (Sample.world true true true) (Sample.globals false)
           Sample.job_clone_mp3 {["/app/output/j0.wav" := "RIFFold"]})
    !! "/app/output/j0.wav" = Some "RIFFold".
Proof.
  split; [discriminate|].
  rewrite (other_files_are_untouched (Sample.world true true true)
             (Sample.globals false) Sample.job_clone_mp3
             {["/app/output/j0.wav" := "RIFFold"]} "/app/output/j0.wav")
    by discriminate.
  reflexivity.
Defined.

(** X18. An embedded payload is the base64 text of the file the encoder
    wrote: what [ta.save] produced at [{job_id}.wav] when the format is
    [wav] (and [duration] is then the sample count over the sample rate),
    what ffmpeg produced from the intermediate wav when it is [mp3]. *)
Theorem embedded_payload_is_the_encoded_file w g job fs0 res payload :
  outcome (run_handler w g job fs0) = Returned res →
  res !! "audio" = Some (VStr payload) →
  ∃ data,
    payload = b64encode w data ∧
    ((res !! "format" = Some (VStr "wav") ∧
      ∃ wav,
        ta_save w (output_path_of (job_id_of w job) "wav") wav (SAMPLE_RATE g)
        = inr data ∧
        res !! "duration"
        = Some (VFloat (FDiv (shape_last wav) (SAMPLE_RATE g)))) ∨
     (res !! "format" = Some (VStr "mp3") ∧
      ∃ fs1,
        subprocess_run w fs1
          (ffmpeg_argv (temp_wav_path (job_id_of w job))
             (output_path_of (job_id_of w job) "mp3"))
        = inr data)).
Proof.
  wp_start. wp_run.
  all: leaf_simpl; intros Hres Hpay; simplify_eq.
  all: try (by unfold error_response in Hpay; result_field Hpay).
  all: result_field Hpay.
  all: try fmt_wav; try fmt_mp3.
  all: eexists; split; [reflexivity|].
  all: first
    [ left; split; [done|]; eexists; split; [eassumption|];
      match goal with
      | H : truediv _ _ = inr _ |- _ =>
          unfold truediv in H; case_match; simplify_eq; done
      end
    | right; split; [done|]; eexists; eassumption ].
Qed.


Lemma embedded_payload_is_the_encoded_file_witness :
  ∃ res,
    outcome (run_handler (Sample.world true true true) (Sample.globals false)
               Sample.job_plain ∅) = Returned res ∧
    res !! "audio" = Some (VStr "b64:RIFFpcm") ∧
    ∃ data, "b64:RIFFpcm" = b64encode (Sample.world true true true) data.
Proof.
  eexists. split; [by vm_compute|]. split; [by vm_compute|].
  edestruct (embedded_payload_is_the_encoded_file
               (Sample.world true true true) (Sample.globals false)
               Sample.job_plain ∅) as (data & Hdata & _);
    [by vm_compute | by vm_compute | by exists data].
Defined.

(** X19. The model is called with the trimmed text, which is not empty, and
    with the reference-audio path exactly when the input has an
    [audio_prompt] key. *)
Theorem synthesis_gets_trimmed_text_and_prompt w g job fs0 t prompt e :
  In (EvGenerate t prompt e) (events (run_handler w g job fs0)) →
  ∃ d s,
    job_input_of job = VDict d ∧
    default (VStr "") (d !! "text") = VStr s ∧
    t = PyStr.strip s ∧ t ≠ "" ∧
    prompt = (if decide (is_Some (d !! "audio_prompt"))
              then Some (prompt_path (job_id_of w job)) else None).
Proof.
  wp_start. wp_run.
  all: leaf_simpl; intros Hin; in_trace Hin.
  all: eexists _, _; split_and!; try done.
  all: try (by intros Hempty; rewrite Hempty in *).
  all: case_decide as Hkey; try done.
  all: try (by destruct Hkey; eauto).
  all: by destruct Hkey as [? Hkey]; simplify_eq.
Qed.


Lemma synthesis_gets_trimmed_text_and_prompt_witness :
  In (EvGenerate "Hello world" (Some "/app/input/j1_prompt.wav") None)
     (events (run_handler (Sample.world true true true) (Sample.globals false)
                Sample.job_url ∅)) ∧
  ∃ d s,
    job_input_of Sample.job_url = VDict d ∧
    default (VStr "") (d !! "text") = VStr s ∧
    "Hello world" = PyStr.strip s.
Proof.
  assert (In (EvGenerate "Hello world" (Some "/app/input/j1_prompt.wav") None)
            (events (run_handler (Sample.world true true true)
                       (Sample.globals false) Sample.job_url ∅))) as Hin
    by in_run.
  split; [exact Hin|].
  destruct (synthesis_gets_trimmed_text_and_prompt
              (Sample.world true true true) (Sample.globals false)
              Sample.job_url ∅ "Hello world"
              (Some "/app/input/j1_prompt.wav") None Hin)
    as (d & s & Hd & Hs & Ht & _).
  by exists d, s.
Defined.

(** X20. The encoder, the transcoder and the store are only ever given the
    job's own names: [ta.save] writes [{job_id}.wav] or the intermediate
    wav; ffmpeg runs with the fixed arguments from the intermediate wav,
    which [ta.save] wrote before, to [{job_id}.mp3]; [put_object] is called
    only with a store client, on the configured bucket, with the key
    [tts/{job_id}.wav] or [tts/{job_id}.mp3]. *)
Theorem encoder_and_store_calls_are_job_scoped w g job fs0 :
  (∀ path e,
     In (EvSave path e) (events (run_handler w g job fs0)) →
     path = output_path_of (job_id_of w job) "wav" ∨
     path = temp_wav_path (job_id_of w job)) ∧
  (∀ argv e,
     In (EvTranscode argv e) (events (run_handler w g job fs0)) →
     argv = ffmpeg_argv (temp_wav_path (job_id_of w job))
              (output_path_of (job_id_of w job) "mp3") ∧
     In (EvSave (temp_wav_path (job_id_of w job)) None)
        (events (run_handler w g job fs0))) ∧
  (∀ bucket key e,
     In (EvPutObject bucket key e) (events (run_handler w g job fs0)) →
     r2_client g = true ∧ bucket = R2_BUCKET g ∧
     (key = "tts/" ++ job_id_of w job ++ ".wav" ∨
      key = "tts/" ++ job_id_of w job ++ ".mp3")).
Proof.
  wp_start. wp_run.
  all: leaf_simpl; split_and!.
  all: try (by intros ? ? Hin; in_trace Hin).
  all: try (by intros ? ? ? Hin; in_trace Hin).
  all: try fmt_wav; try fmt_mp3.
  all: try (by intros ? ? Hin; in_trace Hin; auto).
  all: try (by intros ? ? Hin; in_trace Hin; split; [done|cbn [In]; auto 10]).
  all: intros ? ? ? Hin; in_trace Hin.
  all: split_and!; [by destruct (r2_client g) | done | auto].
Qed.


Lemma encoder_and_store_calls_are_job_scoped_witness :
  In (EvSave "/app/output/j1_temp.wav" None)
     (events (run_handler (Sample.world true true true) (Sample.globals false)
                Sample.job_clone_mp3 ∅)) ∧
  ("/app/output/j1_temp.wav"
   = output_path_of (job_id_of (Sample.world true true true)
                       Sample.job_clone_mp3) "wav" ∨
   "/app/output/j1_temp.wav"
   = temp_wav_path (job_id_of (Sample.world true true true)
                      Sample.job_clone_mp3)).
Proof.
  split; [in_run|].
  apply (proj1 (encoder_and_store_calls_are_job_scoped
           (Sample.world true true true) (Sample.globals false)
           Sample.job_clone_mp3 ∅) "/app/output/j1_temp.wav" None).
  in_run.
Defined.
